(** * warrenprobeats: the purchase / reservation / download lifecycle

    A shallow embedding of [main/models.py] and [main/views.py].

    - Model instances are records; a method that mutates [self] returns
      the mutated instance.
    - The database, the media storage and the session of the requesting
      client form a [World] that is threaded through a small state and
      exception monad [M].  Writes are autocommitted: a raised exception
      does not undo the writes made before it.
    - [timezone.now()] is an argument of every operation that reads the
      clock; time is counted in seconds.
    - [DecimalField(decimal_places=2)] amounts are integers (cents). *)

From Stdlib Require Import ZArith QArith String List Lia.
From stdpp Require Import base gmap list strings sorting.

Open Scope Z_scope.
Open Scope string_scope.
Open Scope list_scope.

(** ** Data model (models.py) *)

(** [Beat.STATUS_CHOICES] *)
Inductive BeatStatus := available | reserved | sold | downloaded.

(** [Transaction.STATUS_CHOICES] *)
Inductive TxStatus := pending | completed | failed | cancelled.

#[global] Instance BeatStatus_eq_dec : EqDecision BeatStatus.
Proof. solve_decision. Defined.

#[global] Instance TxStatus_eq_dec : EqDecision TxStatus.
Proof. solve_decision. Defined.

(** [class Beat].  The columns that the lifecycle reads or writes, and
    [is_available_attr]: the instance attribute [is_available] that
    [mark_as_downloaded] assigns.  It is not a column, so an instance read
    back from the database does not have it. *)
Record Beat := mkBeat {
  pk : Z;
  album : Z;
  audio_file : string;
  price : Z;
  status : BeatStatus;
  reserved_until : option Z;
  download_count : Z;
  max_downloads : Z;
  is_available_attr : option bool
}.

Definition set_status (s : BeatStatus) (b : Beat) : Beat :=
  mkBeat (pk b) (album b) (audio_file b) (price b) s (reserved_until b)
         (download_count b) (max_downloads b) (is_available_attr b).

Definition set_reserved_until (r : option Z) (b : Beat) : Beat :=
  mkBeat (pk b) (album b) (audio_file b) (price b) (status b) r
         (download_count b) (max_downloads b) (is_available_attr b).

Definition set_download_count (n : Z) (b : Beat) : Beat :=
  mkBeat (pk b) (album b) (audio_file b) (price b) (status b) (reserved_until b)
         n (max_downloads b) (is_available_attr b).

Definition set_is_available_attr (a : option bool) (b : Beat) : Beat :=
  mkBeat (pk b) (album b) (audio_file b) (price b) (status b) (reserved_until b)
         (download_count b) (max_downloads b) a.

(** [class Transaction].  [t_beat] is the cached related object behind
    [self.beat]; [t_beat_id] is the foreign key column. *)
Record Transaction := mkTransaction {
  t_id : option Z;
  t_buyer : Z;
  t_beat_id : Z;
  t_beat : option Beat;
  amount : Z;
  t_status : TxStatus;
  payment_method : string;
  completed_at : option Z
}.

Definition set_t_id (k : option Z) (t : Transaction) : Transaction :=
  mkTransaction k (t_buyer t) (t_beat_id t) (t_beat t) (amount t) (t_status t)
                (payment_method t) (completed_at t).

Definition set_t_beat (b : option Beat) (t : Transaction) : Transaction :=
  mkTransaction (t_id t) (t_buyer t) (t_beat_id t) b (amount t) (t_status t)
                (payment_method t) (completed_at t).

Definition set_completed_at (c : option Z) (t : Transaction) : Transaction :=
  mkTransaction (t_id t) (t_buyer t) (t_beat_id t) (t_beat t) (amount t) (t_status t)
                (payment_method t) c.

(** [class DownloadHistory]: columns [beat], [buyer], [downloaded_at].
    [dh_download_count] is the instance attribute [download_count], which
    is not a column of this model. *)
Record DownloadHistory := mkDownloadHistory {
  dh_id : option Z;
  dh_beat_id : Z;
  dh_beat : option Beat;
  dh_buyer : Z;
  downloaded_at : Z;
  dh_download_count : option Z
}.

Definition set_dh_id (k : option Z) (h : DownloadHistory) : DownloadHistory :=
  mkDownloadHistory k (dh_beat_id h) (dh_beat h) (dh_buyer h) (downloaded_at h)
                    (dh_download_count h).

Definition set_dh_beat (b : option Beat) (h : DownloadHistory) : DownloadHistory :=
  mkDownloadHistory (dh_id h) (dh_beat_id h) b (dh_buyer h) (downloaded_at h)
                    (dh_download_count h).

Definition set_dh_download_count (c : option Z) (h : DownloadHistory) : DownloadHistory :=
  mkDownloadHistory (dh_id h) (dh_beat_id h) (dh_beat h) (dh_buyer h) (downloaded_at h) c.

(** ** The world: tables, media storage, session *)

Record World := mkWorld {
  beat_table : gmap Z Beat;
  transaction_table : list Transaction;
  downloadhistory_table : list DownloadHistory;
  media : list string;
  session_current_beat_id : option Z
}.

Definition set_beat_table (m : gmap Z Beat) (w : World) : World :=
  mkWorld m (transaction_table w) (downloadhistory_table w) (media w)
          (session_current_beat_id w).

Definition set_transaction_table (l : list Transaction) (w : World) : World :=
  mkWorld (beat_table w) l (downloadhistory_table w) (media w)
          (session_current_beat_id w).

Definition set_downloadhistory_table (l : list DownloadHistory) (w : World) : World :=
  mkWorld (beat_table w) (transaction_table w) l (media w)
          (session_current_beat_id w).

Definition set_session_current_beat_id (s : option Z) (w : World) : World :=
  mkWorld (beat_table w) (transaction_table w) (downloadhistory_table w) (media w) s.

(** ** State and exception monad *)

Inductive exn := Http404 | TypeError | AttributeError | DoesNotExist.

Inductive outcome (A : Type) :=
| Ok (a : A)
| Raise (e : exn).
Arguments Ok {A} a.
Arguments Raise {A} e.

Definition M (A : Type) : Type := World -> outcome A * World.

Definition ret {A} (a : A) : M A := fun w => (Ok a, w).

Definition raise {A} (e : exn) : M A := fun w => (Raise e, w).

Definition bind {A B} (c : M A) (k : A -> M B) : M B :=
  fun w => match c w with
           | (Ok a, w') => k a w'
           | (Raise e, w') => (Raise e, w')
           end.

Definition gets {A} (f : World -> A) : M A := fun w => (Ok (f w), w).

Definition modify (f : World -> World) : M unit := fun w => (Ok tt, f w).

Notation "'do' x <- c ; k" := (bind c (fun x => k))
  (at level 10, x name, c at level 100, k at level 200, only parsing).
Notation "'do' ' p <- c ; k" := (bind c (fun x => match x with p => k end))
  (at level 10, p pattern, c at level 100, k at level 200, only parsing).
Notation "'exec' c ; k" := (bind c (fun _ => k))
  (at level 10, c at level 100, k at level 200, only parsing).

(** ** ORM primitives *)

(** A row holds the columns only: an instance attribute is neither
    written to the table nor read back from it. *)
Definition from_db (row : Beat) : Beat := set_is_available_attr None row.

(** [get_object_or_404(Beat, pk=beat_id)] *)
Definition get_object_or_404 (beat_id : Z) : M Beat :=
  do r <- gets (fun w => beat_table w !! beat_id) ;
  match r with
  | Some row => ret (from_db row)
  | None => raise Http404
  end.

(** [Beat.save()]: the row with the instance's primary key becomes the
    instance's column values. *)
Definition Beat_save (self : Beat) : M unit :=
  modify (fun w => set_beat_table (<[pk self := from_db self]> (beat_table w)) w).

(** The next value of an auto-incremented primary key. *)
Definition fresh_pk (used : list (option Z)) : Z :=
  1 + fold_right (fun k acc => Z.max (default 0 k) acc) 0 used.

(** ** Beat methods *)

Definition five_minutes : Z := 300.

(** [Beat.mark_as_downloaded] *)
Definition Beat_mark_as_downloaded (self : Beat) : M Beat :=
  let self := set_download_count (download_count self + 1) self in
  let self :=
    if Z.leb (max_downloads self) (download_count self)
    then set_is_available_attr (Some false) (set_status downloaded self)
    else self in
  exec Beat_save self ;
  ret self.

(** [Beat.is_downloadable] *)
Definition Beat_is_downloadable (self : Beat) : bool :=
  (bool_decide (status self = available) || bool_decide (status self = sold))
  && Z.ltb (download_count self) (max_downloads self).

(** [Beat.reserve_for_purchase] *)
Definition Beat_reserve_for_purchase (now : Z) (self : Beat) : M Beat :=
  let self := set_status reserved self in
  let self := set_reserved_until (Some (now + five_minutes)) self in
  exec Beat_save self ;
  ret self.

(** [Beat.complete_purchase] *)
Definition Beat_complete_purchase (self : Beat) : M Beat :=
  let self := set_status sold self in
  let self := set_reserved_until None self in
  exec Beat_save self ;
  ret self.

(** [Beat.release_reservation].  A datetime is always truthy, so
    [self.reserved_until and ...] only excludes [None]. *)
Definition Beat_release_reservation (now : Z) (self : Beat) : M Beat :=
  match status self, reserved_until self with
  | reserved, Some until =>
      if Z.ltb until now then
        let self := set_status available self in
        let self := set_reserved_until None self in
        exec Beat_save self ;
        ret self
      else ret self
  | _, _ => ret self
  end.

(** [Beat.is_available], the method body. *)
Definition Beat_is_available (now : Z) (self : Beat) : M (Beat * bool) :=
  do self <- Beat_release_reservation now self ;
  ret (self, bool_decide (status self = available)).

(** The call [beat.is_available()]: attribute lookup finds the instance
    attribute before the method, and a [bool] is not callable. *)
Definition call_is_available (now : Z) (self : Beat) : M (Beat * bool) :=
  match is_available_attr self with
  | None => Beat_is_available now self
  | Some _ => raise TypeError
  end.

(** ** Transaction *)

(** [self.beat] on an instance with a foreign key to Beat: the cached
    instance, or the row read on first access. *)
Definition related_beat (cache : option Beat) (beat_id : Z) : M Beat :=
  match cache with
  | Some b => ret b
  | None =>
      do r <- gets (fun w => beat_table w !! beat_id) ;
      match r with
      | Some row => ret (from_db row)
      | None => raise DoesNotExist
      end
  end.

(** [models.Model.save] on a Transaction ([super().save(...)]): INSERT
    with a new primary key when the instance has none, UPDATE of the row
    with that key otherwise (INSERT when no such row exists). *)
Definition Model_save_Transaction (self : Transaction) : M Transaction :=
  match t_id self with
  | None =>
      do k <- gets (fun w => fresh_pk (map t_id (transaction_table w))) ;
      let self := set_t_id (Some k) self in
      exec modify (fun w =>
        set_transaction_table (transaction_table w ++ [set_t_beat None self]) w) ;
      ret self
  | Some k =>
      exec modify (fun w =>
        let rows := transaction_table w in
        set_transaction_table
          (if existsb (fun row => bool_decide (t_id row = Some k)) rows
           then map (fun row => if bool_decide (t_id row = Some k)
                                then set_t_beat None self else row) rows
           else rows ++ [set_t_beat None self]) w) ;
      ret self
  end.

(** [Transaction.save].  A datetime is always truthy, so
    [not self.completed_at] holds exactly when [completed_at] is [None]. *)
Definition Transaction_save (now : Z) (self : Transaction) : M Transaction :=
  do self <-
    match t_status self, completed_at self with
    | completed, None =>
        let self := set_completed_at (Some now) self in
        do b <- related_beat (t_beat self) (t_beat_id self) ;
        do b <- Beat_complete_purchase b ;
        ret (set_t_beat (Some b) self)
    | failed, _ | cancelled, _ =>
        do b <- related_beat (t_beat self) (t_beat_id self) ;
        do b <- Beat_release_reservation now b ;
        ret (set_t_beat (Some b) self)
    | _, _ => ret self
    end ;
  Model_save_Transaction self.

(** [Transaction.objects.create(buyer=..., beat=..., amount=..., status=...)]:
    the other columns take their defaults. *)
Definition Transaction_objects_create
    (now : Z) (buyer : Z) (beat : Beat) (amount : Z) (st : TxStatus) : M Transaction :=
  Transaction_save now (mkTransaction None buyer (pk beat) (Some beat) amount st "" None).

(** ** DownloadHistory and its [post_save] receivers *)

(** [update_beat_download_count] *)
Definition update_beat_download_count
    (instance : DownloadHistory) (created : bool) : M DownloadHistory :=
  if created then
    do b <- related_beat (dh_beat instance) (dh_beat_id instance) ;
    let b := set_download_count (download_count b + 1) b in
    let b := if Z.leb (max_downloads b) (download_count b)
             then set_status downloaded b else b in
    exec Beat_save b ;
    ret (set_dh_beat (Some b) instance)
  else ret instance.

(** [auto_increment_download_count]: it reads and writes [download_count]
    on the DownloadHistory instance itself. *)
Definition auto_increment_download_count
    (instance : DownloadHistory) (created : bool) : M DownloadHistory :=
  if created then
    match dh_download_count instance with
    | Some c => ret (set_dh_download_count (Some (c + 1)) instance)
    | None => raise AttributeError
    end
  else ret instance.

(** What the ORM does with a keyword argument that names no field of the
    model.  Django's [Model.__init__] raises [TypeError] ([StrictInit]);
    the ORM is not part of the repository, so the reading under which the
    keyword becomes a plain attribute of the instance ([LenientInit]) is
    kept as well. *)
Inductive ModelInit := StrictInit | LenientInit.

(** [DownloadHistory.objects.create(buyer=..., beat=..., download_count=...)]:
    build the instance, INSERT it with [downloaded_at] set by
    [auto_now_add], then send [post_save] with [created=True] to the
    receivers in the order in which they were connected. *)
Definition DownloadHistory_objects_create
    (init : ModelInit) (now : Z) (buyer : Z) (beat : Beat)
    (download_count_kw : option Z) : M DownloadHistory :=
  do self <-
    match download_count_kw, init with
    | Some _, StrictInit => raise TypeError
    | kw, _ => ret (mkDownloadHistory None (pk beat) (Some beat) buyer now kw)
    end ;
  do k <- gets (fun w => fresh_pk (map dh_id (downloadhistory_table w))) ;
  let self := set_dh_id (Some k) self in
  exec modify (fun w =>
    set_downloadhistory_table
      (downloadhistory_table w ++ [set_dh_download_count None (set_dh_beat None self)]) w) ;
  do self <- update_beat_download_count self true ;
  do self <- auto_increment_download_count self true ;
  ret self.

(** ** Views (views.py) *)

Definition beat_id_global : Z := 0.

Record HttpRequest := mkRequest {
  user_buyer_profile : option Z;
  GET_status : option string;
  GET_tx_ref : option string
}.

Inductive HttpResponse :=
| HttpResponseForbidden (content : string)
| FileResponse (path : string).

(** [request.user.buyer_profile]: an anonymous user has no such attribute. *)
Definition buyer_profile (request : HttpRequest) : M Z :=
  match user_buyer_profile request with
  | Some buyer => ret buyer
  | None => raise AttributeError
  end.

(** [Transaction.objects.filter(buyer=..., beat=..., status='completed').exists()] *)
Definition has_completed_transaction (buyer : Z) (beat : Beat) (w : World) : bool :=
  existsb (fun t => bool_decide (t_buyer t = buyer)
                    && bool_decide (t_beat_id t = pk beat)
                    && bool_decide (t_status t = completed))
          (transaction_table w).

(** [os.path.exists(file_path)] *)
Definition os_path_exists (file_path : string) (w : World) : bool :=
  bool_decide (file_path ∈ media w).

(** [download_beat].  The instance passed as [beat=beat] is the object
    that the receivers reach as [instance.beat], so after the create the
    view's [beat] is that mutated object. *)
Definition download_beat
    (init : ModelInit) (now : Z) (request : HttpRequest) (beat_id : Z) : M HttpResponse :=
  do beat <- get_object_or_404 beat_id ;
  do buyer <- buyer_profile request ;
  do has_purchased <- gets (has_completed_transaction buyer beat) ;
  if negb has_purchased then
    ret (HttpResponseForbidden "You have not purchased this beat.")
  else
    let file_path := audio_file beat in
    do file_exists <- gets (os_path_exists file_path) ;
    if file_exists then
      do history <- DownloadHistory_objects_create init now buyer beat
                      (Some (download_count beat)) ;
      do beat <- related_beat (dh_beat history) (dh_beat_id history) ;
      do beat <- Beat_mark_as_downloaded beat ;
      ret (FileResponse file_path)
    else
      ret (HttpResponseForbidden "File does not exist.").

Inductive RedirectTarget := main_index | main_detail (album_id : Z).

(** What [payment_response] ends with.  The successful branch has no
    [return]: [start_download] is what [download_beat] handed back before
    the view falls off its end. *)
Inductive PaymentOutcome :=
| Redirected (to : RedirectTarget) (message : string)
| FellThrough (start_download : HttpResponse).

(** [payment_response].  [now] is the clock read by [Transaction.save],
    [now'] the one read when the download history row is inserted.
    [album] is a non-null foreign key, so [if beat.album] holds. *)
Definition payment_response
    (init : ModelInit) (now now' : Z) (request : HttpRequest) : M PaymentOutcome :=
  do beat_id <- gets session_current_beat_id ;
  match beat_id with
  | None | Some 0 =>
      ret (Redirected main_index "Invalid payment session. Please try again.")
  | Some beat_id =>
      do beat <- get_object_or_404 beat_id ;
      exec modify (set_session_current_beat_id None) ;
      if bool_decide (GET_status request = Some "successful") then
        do buyer <- buyer_profile request ;
        do _ <- Transaction_objects_create now buyer beat (price beat) completed ;
        do start_download <- download_beat init now' request beat_id_global ;
        ret (FellThrough start_download)
      else if bool_decide (GET_status request = Some "cancelled") then
        ret (Redirected (main_detail (album beat)) "Payment was cancelled. Please try again.")
      else
        ret (Redirected (main_detail (album beat)) "Payment failed. Please try again.")
  end.

(** ** Revenue aggregation (read-only queries) *)

(** [Transaction.objects.filter(status='completed')] *)
Definition completed_transactions (w : World) : list Transaction :=
  filter (fun t => t_status t = completed) (transaction_table w).

(** [aggregate(Sum('amount'))]: [None] over an empty result set. *)
Definition Sum (rows : list Transaction) : option Z :=
  match rows with
  | [] => None
  | _ => Some (fold_right (fun t acc => amount t + acc) 0 rows)
  end.

(** [aggregate(Avg('amount'))]: [None] over an empty result set. *)
Definition Avg (rows : list Transaction) : option Q :=
  match rows with
  | [] => None
  | _ => Some (Qmake (fold_right (fun t acc => amount t + acc) 0 rows)
                     (Pos.of_nat (length rows)))
  end.

(** [x or 0] for a number or [None]: a falsy number is zero anyway. *)
Definition or_0 (x : option Z) : Z := default 0 x.
Definition or_0Q (x : option Q) : Q := default (0 # 1)%Q x.

(** [.count()] *)
Definition count (rows : list Transaction) : Z := Z.of_nat (length rows).

(** The calendar date of a timestamp, as a day number. *)
Definition date (t : Z) : Z := t / 86400.

(** [.filter(completed_at__date=today)]: a NULL [completed_at] never matches. *)
Definition filter_completed_at_date (today : Z) (rows : list Transaction) : list Transaction :=
  filter (fun t => (date <$> completed_at t) = Some today) rows.

(** [Transaction.get_total_revenue] *)
Definition Transaction_get_total_revenue (w : World) : Z :=
  or_0 (Sum (completed_transactions w)).

(** [Transaction.get_beats_sold_count] *)
Definition Transaction_get_beats_sold_count (w : World) : Z :=
  count (completed_transactions w).

(** The [stats] dictionary of [get_revenue_statistics]. *)
Record RevenueStatistics := mkStats {
  total_revenue : Z;
  total_beats_sold : Z;
  average_sale_value : Q;
  today_revenue : Z;
  today_sales : Z
}.

(** [get_revenue_statistics]; [now1] and [now2] are its two clock reads. *)
Definition get_revenue_statistics (now1 now2 : Z) (w : World) : RevenueStatistics :=
  let completed_transactions := completed_transactions w in
  mkStats
    (or_0 (Sum completed_transactions))
    (count completed_transactions)
    (or_0Q (Avg completed_transactions))
    (or_0 (Sum (filter_completed_at_date (date now1) completed_transactions)))
    (count (filter_completed_at_date (date now2) completed_transactions)).

(** ** Running a computation *)

Definition run {A} (c : M A) (w : World) : outcome A * World := c w.
Definition result {A} (c : M A) (w : World) : outcome A := fst (c w).
Definition after {A} (c : M A) (w : World) : World := snd (c w).

(** The stored download count of a beat. *)
Definition stored_download_count (beat_id : Z) (w : World) : option Z :=
  download_count <$> (beat_table w !! beat_id).

(** The download history rows of a beat. *)
Definition history_of (beat_id : Z) (w : World) : list DownloadHistory :=
  filter (fun h => dh_beat_id h = beat_id) (downloadhistory_table w).

(** ** Vocabulary of the statements *)

(** The instance and the world right after [b.reserve_for_purchase()] at
    time [T]. *)
Definition held (T : Z) (b : Beat) : Beat :=
  set_reserved_until (Some (T + five_minutes)) (set_status reserved b).
Definition w_held (T : Z) (b : Beat) (w : World) : World :=
  set_beat_table (<[pk b := from_db (held T b)]> (beat_table w)) w.

(** The instance and the world after that hold has been released. *)
Definition freed (T : Z) (b : Beat) : Beat :=
  set_reserved_until None (set_status available (held T b)).
Definition w_freed (T : Z) (b : Beat) (w : World) : World :=
  set_beat_table (<[pk b := from_db (freed T b)]> (beat_table (w_held T b w))) (w_held T b w).

(** The instance after [complete_purchase]. *)
Definition purchased (b : Beat) : Beat :=
  set_reserved_until None (set_status sold b).

(** The instance after the receiver [update_beat_download_count] has
    counted a download on it. *)
Definition counted (b : Beat) : Beat :=
  let b := set_download_count (download_count b + 1) b in
  if Z.leb (max_downloads b) (download_count b) then set_status downloaded b else b.

(** The instance after [mark_as_downloaded]. *)
Definition marked (b : Beat) : Beat :=
  let b := set_download_count (download_count b + 1) b in
  if Z.leb (max_downloads b) (download_count b)
  then set_is_available_attr (Some false) (set_status downloaded b) else b.

(** The stored status of a beat. *)
Definition stored_status (beat_id : Z) (w : World) : option BeatStatus :=
  status <$> (beat_table w !! beat_id).

(** ** Sequences of core operations *)

(** The core operations, each one a request of its own: reserve a beat,
    save a transaction, ask the download endpoint for a beat, create a
    download history row for a beat. *)
Inductive CoreOp :=
| Reserve (now : Z) (beat_id : Z)
| SaveTransaction (now : Z) (t : Transaction)
| Download (now : Z) (request : HttpRequest) (beat_id : Z)
| CreateHistory (now : Z) (buyer : Z) (beat_id : Z).

Definition core_op (init : ModelInit) (op : CoreOp) : M unit :=
  match op with
  | Reserve now beat_id =>
      do b <- get_object_or_404 beat_id ;
      do _ <- Beat_reserve_for_purchase now b ;
      ret tt
  | SaveTransaction now t =>
      do _ <- Transaction_save now t ;
      ret tt
  | Download now request beat_id =>
      do _ <- download_beat init now request beat_id ;
      ret tt
  | CreateHistory now buyer beat_id =>
      do b <- get_object_or_404 beat_id ;
      do _ <- DownloadHistory_objects_create init now buyer b None ;
      ret tt
  end.

(** The world after a sequence of operations; an operation that raises
    ends its own request only. *)
Fixpoint run_ops (init : ModelInit) (ops : list CoreOp) (w : World) : World :=
  match ops with
  | [] => w
  | op :: ops => run_ops init ops (after (core_op init op) w)
  end.

(** [download_count <= max_downloads] for every stored beat. *)
Definition quota_respected (w : World) : Prop :=
  forall k b, beat_table w !! k = Some b -> download_count b <= max_downloads b.

(** Every stored beat sits under its own primary key. *)
Definition keyed_by_pk (w : World) : Prop :=
  forall k b, beat_table w !! k = Some b -> pk b = k.

(** What the successful branch of [payment_response] does after the
    ledger write when the download endpoint is asked for [beat_id]. *)
Definition deliver (init : ModelInit) (now : Z) (request : HttpRequest) (beat_id : Z)
  : M PaymentOutcome :=
  do start_download <- download_beat init now request beat_id ;
  ret (FellThrough start_download).

(** ** Sample data *)

Module Sample.

(** A beat priced 25.00 with the default quota of one download. *)
Definition beat : Beat := mkBeat 1 1 "beats/a.mp3" 2500 available None 0 1 None.

(** Buyer 7 is logged in. *)
Definition request : HttpRequest := mkRequest (Some 7) None None.

(** The catalogue holds [beat]; its audio file is on disk. *)
Definition shop : World := mkWorld {[ 1 := beat ]} [] [] ["beats/a.mp3"] None.

(** The shop after buyer 7 has paid for [beat]: the ledger holds the
    completed transaction and the beat is sold. *)
Definition paid_shop : World :=
  after (Transaction_objects_create 10 7 beat 2500 completed) shop.

(** [beat] with its single download used up. *)
Definition spent_beat : Beat := mkBeat 1 1 "beats/a.mp3" 2500 downloaded None 1 1 None.

(** [paid_shop] with the beat's quota used up, the audio file on disk. *)
Definition spent_shop : World := set_beat_table {[ 1 := spent_beat ]} paid_shop.

(** The same with the audio file gone. *)
Definition spent_shop_no_file : World :=
  mkWorld (beat_table spent_shop) (transaction_table spent_shop)
          (downloadhistory_table spent_shop) [] None.

(** The shop during a checkout of [beat]: the session remembers beat 1. *)
Definition checkout_shop : World := mkWorld {[ 1 := beat ]} [] [] ["beats/a.mp3"] (Some 1).

(** The gateway's callbacks for buyer 7. *)
Definition callback (st : string) : HttpRequest := mkRequest (Some 7) (Some st) (Some "4711").

(** [spent_shop] during a second checkout of the same beat. *)
Definition spent_checkout_shop : World := set_session_current_beat_id (Some 1) spent_shop.

(** A ledger without a completed transaction. *)
Definition unpaid_shop : World :=
  mkWorld {[ 1 := beat ]}
          [mkTransaction (Some 1) 7 1 None 2500 pending "stripe" None;
           mkTransaction (Some 2) 8 1 None 2500 cancelled "paypal" None;
           mkTransaction (Some 3) 8 1 None 2500 failed "other" None]
          [] ["beats/a.mp3"] None.

End Sample.

(** * Definitions for the further properties *)

(** [mark_as_downloaded] called [k] times in a row on the same instance. *)
Fixpoint mark_times (k : nat) (self : Beat) : M Beat :=
  match k with
  | O => ret self
  | S k =>
      do self <- Beat_mark_as_downloaded self ;
      mark_times k self
  end.

(** A beat holds a reservation whose deadline has passed at [now]. *)
Definition reservation_expired (now : Z) (b : Beat) : Prop :=
  status b = reserved /\ exists until, reserved_until b = Some until /\ until < now.

(** The instance after [release_reservation] has released its hold. *)
Definition released (b : Beat) : Beat :=
  set_reserved_until None (set_status available b).

(** [Buyer.purchased_beats]: the beats joined with a transaction of this
    buyer whose status is 'completed', each beat once ([distinct()]).
    The rows of the QuerySet, keyed by primary key; their order is not
    modelled. *)
Definition Buyer_purchased_beats (buyer : Z) (w : World) : gmap Z Beat :=
  filter (fun kb => has_completed_transaction buyer kb.2 w = true) (beat_table w).

(** ** Starting a purchase (views.py) *)

(** The JSON document that [process_payment] posts to the gateway, with
    the [Authorization] header it sends along. *)
Record GatewayRequest := mkGatewayRequest {
  authorization : string;
  tx_ref : string;
  gw_amount : Z;
  currency : string;
  redirect_url : string;
  payment_options : string;
  consumer_id : Z;
  consumer_mac : string;
  customer_email : string;
  customer_phonenumber : string;
  customer_name : string;
  customizations_title : string;
  customizations_description : string;
  customizations_logo : string
}.

(** What [process_payment] takes from outside the program: the
    environment variable [SEC_LIVE], the string drawn for [tx_ref]
    ([str(math.floor(1000000 + random.random()*9000000))]), and the
    gateway, which answers a POST to a URL with the payment link found at
    [response['data']['link']]; [None] stands for every answer from which
    that link cannot be read. *)
Record PaymentEnv := mkPaymentEnv {
  SEC_LIVE : option string;
  drawn_tx_ref : string;
  gateway_post : string -> GatewayRequest -> option string
}.

(** How [process_payment] fails: the [ValueError] it raises itself, and
    the lookup of the link in a reply that has none. *)
Inductive PaymentError := MissingSecretKey | NoLinkInReply.

(** [process_payment].  [if not auth_token] holds for a missing and for an
    empty variable. *)
Definition process_payment (env : PaymentEnv) (name email : string)
  : PaymentError + string :=
  match SEC_LIVE env with
  | None | Some "" => inl MissingSecretKey
  | Some auth_token =>
      let phone := "0706626855" in
      let url := " https://api.flutterwave.com/v3/payments" in
      let data :=
        mkGatewayRequest
          (String.append "Bearer " auth_token)
          (drawn_tx_ref env)
          40
          "USD"
          "http://127.0.0.1:8000/main/callback"
          "mobilemoneyuganda,             card,mobilemoneyrwanda,mobilemoneyghana,banktransfer"
          23
          "92a3-912ba-1192a"
          email
          phone
          name
          "Warren Pro Beats"
          "Classic Beats"
          "https://getbootstrap.com/docs/4.0/assets/brand/bootstrap-solid.svg" in
      match gateway_post env url data with
      | Some link => inr link
      | None => inl NoLinkInReply
      end
  end.

(** What [purchase_and_download_beat] ends with: the confirmation page,
    the redirect to the payment link, or the failure of
    [process_payment], which leaves the view as an exception after the
    session entry has been written. *)
Inductive PurchaseOutcome :=
| RenderPurchaseConfirm (beat : Beat) (price : Z)
| RedirectToPayment (payment_link : string)
| PaymentFailed (e : PaymentError).

(** [purchase_and_download_beat]; [method] is [request.method]. *)
Definition purchase_and_download_beat
    (env : PaymentEnv) (method : string) (beat_id : Z) : M PurchaseOutcome :=
  do beat <- get_object_or_404 beat_id ;
  exec modify (set_session_current_beat_id (Some beat_id)) ;
  if bool_decide (method = "POST") then
    match process_payment env "josh" "beat@beat.com" with
    | inr payment_link => ret (RedirectToPayment payment_link)
    | inl e => ret (PaymentFailed e)
    end
  else
    ret (RenderPurchaseConfirm beat (price beat)).

(** ** Daily revenue and the daily report (models.py) *)

(** One row of [Transaction.get_daily_revenue]: [date], [daily_revenue]
    (a SQL [SUM], so nullable) and [daily_sales]. *)
Record DailyRevenue := mkDailyRevenue {
  dr_date : Z;
  daily_revenue : option Z;
  daily_sales : Z
}.

(** [timedelta(days=days)] in seconds. *)
Definition timedelta_days (days : Z) : Z := days * 86400.

(** [status='completed', completed_at__gte=since]: a NULL [completed_at]
    never matches. *)
Definition completed_since (since : Z) (t : Transaction) : bool :=
  bool_decide (t_status t = completed)
  && match completed_at t with
     | Some c => Z.leb since c
     | None => false
     end.

(** [TruncDate('completed_at')] *)
Definition completed_date (t : Transaction) : option Z := date <$> completed_at t.

(** [Transaction.get_daily_revenue]: the completed transactions of the
    last [days] days, grouped by the date of [completed_at], one row per
    date with the sum of the amounts and the number of transactions,
    ordered by date, latest first. *)
Definition Transaction_get_daily_revenue (now : Z) (days : Z) (w : World)
  : list DailyRevenue :=
  let rows :=
    filter (fun t => completed_since (now - timedelta_days days) t = true)
           (transaction_table w) in
  let dates := merge_sort Z.ge (remove_dups (omap completed_date rows)) in
  (fun d =>
     let group := filter_completed_at_date d rows in
     mkDailyRevenue d (Sum group) (count group))
  <$> dates.

(** The transactions that [get_daily_revenue] groups, and the dates it
    lists. *)
Definition daily_rows (now days : Z) (w : World) : list Transaction :=
  filter (fun t => completed_since (now - timedelta_days days) t = true)
         (transaction_table w).
Definition daily_dates (now days : Z) (w : World) : list Z :=
  merge_sort Z.ge (remove_dups (omap completed_date (daily_rows now days w))).

(** [class RevenueReport]: [report_date] is unique. *)
Record RevenueReport := mkRevenueReport {
  report_date : Z;
  report_total_revenue : Z;
  report_total_beats_sold : Z
}.

(** [generate_daily_revenue_report].  The report table is keyed by the
    unique [report_date]; [today] is [date.today()].  [get_or_create]
    finds the report of [today] or inserts one with the defaults; a
    report that was found is updated and saved. *)
Definition generate_daily_revenue_report
    (today : Z) (w : World) (reports : gmap Z RevenueReport)
  : RevenueReport * gmap Z RevenueReport :=
  let total_revenue := Transaction_get_total_revenue w in
  let total_beats_sold := Transaction_get_beats_sold_count w in
  match reports !! today with
  | None =>
      let report := mkRevenueReport today total_revenue total_beats_sold in
      (report, <[today := report]> reports)
  | Some report =>
      let report := mkRevenueReport (report_date report) total_revenue total_beats_sold in
      (report, <[report_date report := report]> reports)
  end.

(** Every stored report sits under its own date. *)
Definition reports_keyed (reports : gmap Z RevenueReport) : Prop :=
  forall d r, reports !! d = Some r -> report_date r = d.

(** The totals over a daily listing. *)
Definition listed_sales (l : list DailyRevenue) : Z :=
  fold_right (fun r acc => daily_sales r + acc) 0 l.
Definition listed_revenue (l : list DailyRevenue) : Z :=
  fold_right (fun r acc => or_0 (daily_revenue r) + acc) 0 l.

(** ** The album page (views.py) *)

(** [detail]: [albums] holds the primary keys of the Album table.  The
    page lists [album.beats.filter(status='available')]: the rows, keyed
    by primary key; their order is not modelled. *)
Definition detail (albums : gset Z) (album_id : Z) : M (gmap Z Beat) :=
  if bool_decide (album_id ∈ albums) then
    gets (fun w =>
      filter (fun kb => album kb.2 = album_id /\ status kb.2 = available)
             (beat_table w))
  else raise Http404.

(** The sum of the amounts of a list of transactions. *)
Definition total_amount (rows : list Transaction) : Z :=
  fold_right (fun t acc => amount t + acc) 0 rows.

(** Further sample data. *)
Module Scenario.

(** A sold beat with three downloads allowed. *)
Definition trio : Beat := mkBeat 2 1 "beats/b.mp3" 4000 sold None 0 3 None.

(** A cancelled transaction of buyer 7 for the sample beat, not yet saved. *)
Definition cancelled_tx (b : Beat) : Transaction :=
  mkTransaction None 7 1 (Some b) 2500 cancelled "" None.

(** Buyer 8 is logged in; buyer 8 has bought nothing. *)
Definition other_request : HttpRequest := mkRequest (Some 8) None None.

(** A checkout whose session names beat 5, which does not exist. *)
Definition stale_checkout : World := mkWorld {[ 1 := Sample.beat ]} [] [] [] (Some 5).

(** A gateway that hands out one fixed link. *)
Definition env : PaymentEnv :=
  mkPaymentEnv (Some "FLWSECK-1") "4711000" (fun _ _ => Some "https://pay.example/4711000").

(** A ledger over three days: two sales on day 2, one on day 0, one
    pending, one completed long ago on day -40. *)
Definition ledger_shop : World :=
  mkWorld {[ 1 := Sample.beat ]}
          [mkTransaction (Some 1) 7 1 None 2500 completed "" (Some 100);
           mkTransaction (Some 2) 8 1 None 1500 completed "" (Some 172900);
           mkTransaction (Some 3) 9 1 None 1000 completed "" (Some 180000);
           mkTransaction (Some 4) 9 1 None 9900 pending "" None;
           mkTransaction (Some 5) 6 1 None 700 completed "" (Some (-3456000))]
          [] [] None.

(** The album table holds album 1. *)
Definition albums : gset Z := {[ 1 ]}.

End Scenario.

(** * Properties *)

(** ** Stepping through a computation *)

Lemma run_bind {A B} (c : M A) (k : A -> M B) (w w' : World) a :
  run c w = (Ok a, w') -> run (bind c k) w = run (k a) w'.
Proof. unfold run, bind. by intros ->. Qed.

Lemma run_bind_raise {A B} (c : M A) (k : A -> M B) (w w' : World) e :
  run c w = (Raise e, w') -> run (bind c k) w = (Raise e, w').
Proof. unfold run, bind. by intros ->. Qed.

Lemma run_gets {A} (f : World -> A) (w : World) : run (gets f) w = (Ok (f w), w).
Proof. reflexivity. Qed.

Lemma run_modify (f : World -> World) (w : World) : run (modify f) w = (Ok tt, f w).
Proof. reflexivity. Qed.

Lemma run_ret {A} (a : A) (w : World) : run (ret a) w = (Ok a, w).
Proof. reflexivity. Qed.

Ltac step_with tac := erewrite run_bind by tac; cbv beta.
Ltac step_gets := step_with ltac:(apply run_gets).
Ltac step_modify := step_with ltac:(apply run_modify).

Lemma get_object_or_404_run beat_id (w : World) row :
  beat_table w !! beat_id = Some row ->
  run (get_object_or_404 beat_id) w = (Ok (from_db row), w).
Proof.
  intros Hrow. unfold get_object_or_404. step_gets. by rewrite Hrow.
Qed.

Lemma buyer_profile_run request buyer (w : World) :
  user_buyer_profile request = Some buyer ->
  run (buyer_profile request) w = (Ok buyer, w).
Proof. unfold buyer_profile. by intros ->. Qed.

Lemma related_beat_run cache beat_id (w : World) b :
  result (related_beat cache beat_id) w = Ok b ->
  run (related_beat cache beat_id) w = (Ok b, w).
Proof.
  unfold result, run, related_beat, bind, gets, ret, raise.
  destruct cache; simpl; [congruence|].
  destruct (beat_table w !! beat_id); simpl; congruence.
Qed.

(** ** Reservation *)

Section Reservation.

Variables (T : Z) (b : Beat) (w : World).

Lemma reserve_for_purchase_run :
  run (Beat_reserve_for_purchase T b) w = (Ok (held T b), w_held T b w).
Proof. reflexivity. Qed.

Lemma release_unexpired t :
  t <= T + five_minutes ->
  run (Beat_release_reservation t (held T b)) (w_held T b w)
    = (Ok (held T b), w_held T b w).
Proof.
  intros Ht. unfold run, Beat_release_reservation. simpl.
  destruct (Z.ltb_spec (T + five_minutes) t); [lia | reflexivity].
Qed.

Lemma release_expired t :
  T + five_minutes < t ->
  run (Beat_release_reservation t (held T b)) (w_held T b w)
    = (Ok (freed T b), w_freed T b w).
Proof.
  intros Ht. unfold run, Beat_release_reservation. simpl.
  destruct (Z.ltb_spec (T + five_minutes) t); [reflexivity | lia].
Qed.

End Reservation.

Lemma release_not_reserved t (self : Beat) (w : World) :
  status self <> reserved ->
  run (Beat_release_reservation t self) w = (Ok self, w).
Proof.
  intros Hs. unfold run, Beat_release_reservation.
  destruct (status self); try reflexivity. congruence.
Qed.

(** Running [release_reservation] twice in a row is the same as running it
    once. *)
Lemma release_idempotent t (self : Beat) (w : World) :
  exists self' w',
    run (Beat_release_reservation t self) w = (Ok self', w') /\
    run (Beat_release_reservation t self') w' = (Ok self', w').
Proof.
  unfold run, Beat_release_reservation.
  destruct (status self) eqn:Hs; try (eexists _, _; split; [reflexivity|]; rewrite Hs; reflexivity).
  destruct (reserved_until self) as [u|] eqn:Hu.
  - destruct (Z.ltb u t) eqn:Hlt.
    + eexists _, _; split; [reflexivity|]. reflexivity.
    + eexists _, _; split; [reflexivity|]. rewrite Hs, Hu, Hlt. reflexivity.
  - eexists _, _; split; [reflexivity|]. rewrite Hs, Hu. reflexivity.
Qed.

(** On an instance read from the database, [beat.is_available()] runs
    the method. *)
Lemma call_is_available_from_db now (row : Beat) :
  call_is_available now (from_db row) = Beat_is_available now (from_db row).
Proof. reflexivity. Qed.

(** On the instance on which [mark_as_downloaded] has reached the quota,
    [is_available] is the value [False], and calling it raises. *)
Lemma call_is_available_after_quota now (self : Beat) (w : World) :
  max_downloads self <= download_count self + 1 ->
  run (call_is_available now (marked self)) w = (Raise TypeError, w).
Proof.
  intros Hq. unfold call_is_available, marked. cbn.
  destruct (Z.leb_spec (max_downloads self) (download_count self + 1)); [reflexivity | lia].
Qed.

(** C4 as stated fails.  The sample beat is reserved at time 0, so it holds
    a reservation until 300.  A second attempt at time 10 raises nothing:
    it returns normally and moves the deadline to 310. *)
Lemma C4_counterexample :
  run (Beat_reserve_for_purchase 0 Sample.beat) Sample.shop
    = (Ok (held 0 Sample.beat), w_held 0 Sample.beat Sample.shop) /\
  status (held 0 Sample.beat) = reserved /\
  reserved_until (held 0 Sample.beat) = Some 300 /\
  10 <= 300 /\
  ~ (exists e, result (Beat_reserve_for_purchase 10 (held 0 Sample.beat))
                      (w_held 0 Sample.beat Sample.shop) = Raise e) /\
  result (Beat_reserve_for_purchase 10 (held 0 Sample.beat))
         (w_held 0 Sample.beat Sample.shop)
    = Ok (held 10 Sample.beat) /\
  reserved_until (held 10 Sample.beat) = Some 310 /\
  stored_status 1 (after (Beat_reserve_for_purchase 10 (held 0 Sample.beat))
                         (w_held 0 Sample.beat Sample.shop)) = Some reserved.
Proof.
  split; [reflexivity|]. split; [reflexivity|]. split; [reflexivity|].
  split; [lia|]. split.
  - intros [e He]. vm_compute in He. discriminate He.
  - split; [reflexivity|]. split; [reflexivity|]. vm_compute. reflexivity.
Qed.

(** C4, amended.  [reserve_for_purchase] checks nothing and never fails: on
    a beat in any state, an unexpired reservation included, it returns
    normally, the beat is reserved until [now + 5 min], and that is what is
    stored; nothing else about the beat changes. *)
Theorem C4_reserve_is_unconditional (now : Z) (self : Beat) (w : World) :
  exists self' w',
    run (Beat_reserve_for_purchase now self) w = (Ok self', w') /\
    status self' = reserved /\
    reserved_until self' = Some (now + 300) /\
    download_count self' = download_count self /\
    max_downloads self' = max_downloads self /\
    pk self' = pk self /\
    beat_table w' !! pk self = Some (from_db self') /\
    (forall k, k <> pk self -> beat_table w' !! k = beat_table w !! k) /\
    transaction_table w' = transaction_table w /\
    downloadhistory_table w' = downloadhistory_table w.
Proof.
  exists (held now self), (w_held now self w).
  split; [reflexivity|]. do 5 (split; [reflexivity|]).
  split; [apply lookup_insert_eq|].
  split; [|split; reflexivity].
  intros k Hk. unfold w_held. simpl. by apply lookup_insert_ne.
Qed.

(** ** Transactions *)

Lemma set_t_id_inv (t t' : Transaction) :
  set_t_id (t_id t) t' = t -> t' = set_t_id (t_id t') t.
Proof. intros <-. by destruct t'. Qed.

(** [super().save()] writes the transaction table only and hands the
    instance back with a primary key. *)
Lemma Model_save_Transaction_run (self : Transaction) (w : World) :
  exists self' w',
    run (Model_save_Transaction self) w = (Ok self', w') /\
    beat_table w' = beat_table w /\
    downloadhistory_table w' = downloadhistory_table w /\
    set_t_id (t_id self) self' = self /\
    (forall k, t_id self = Some k -> self' = self) /\
    (t_id self = None ->
     transaction_table w' = transaction_table w ++ [set_t_beat None self']).
Proof.
  unfold run, Model_save_Transaction.
  destruct self as [[k|] ? ? ? ? ? ? ?]; simpl.
  - eexists _, _. split; [reflexivity|]. simpl.
    repeat split; try reflexivity. discriminate.
  - eexists _, _. split; [reflexivity|]. simpl.
    repeat split; try reflexivity. discriminate.
Qed.

(** The first save of a completed transaction. *)
Lemma Transaction_save_first_completion now (self : Transaction) b (w : World) :
  t_status self = completed ->
  completed_at self = None ->
  result (related_beat (t_beat self) (t_beat_id self)) w = Ok b ->
  exists self1 w1,
    run (Transaction_save now self) w = (Ok self1, w1) /\
    t_status self1 = completed /\
    completed_at self1 = Some now /\
    t_beat self1 = Some (purchased b) /\
    is_Some (t_id self1) /\
    beat_table w1 = <[pk b := from_db (purchased b)]> (beat_table w) /\
    downloadhistory_table w1 = downloadhistory_table w /\
    (t_id self = None ->
     transaction_table w1 = transaction_table w ++ [set_t_beat None self1]).
Proof.
  intros Hs Hc Hb. apply related_beat_run in Hb.
  unfold run, Transaction_save, bind in *. rewrite Hs, Hc. simpl.
  rewrite Hb. simpl.
  set (self2 := set_t_beat _ _).
  set (w2 := set_beat_table _ _).
  destruct (Model_save_Transaction_run self2 w2) as (self' & w' & Hrun & Hbt & Hdh & Hid & Hkeep & Happ).
  unfold run in Hrun. unfold Beat_complete_purchase, bind, Beat_save, modify, ret. simpl.
  fold w2. fold self2. rewrite Hrun.
  exists self', w'. split; [reflexivity|].
  pose proof (set_t_id_inv _ _ Hid) as Hself.
  split; [by rewrite Hself|]. split; [by rewrite Hself|]. split; [by rewrite Hself|].
  split.
  { destruct (t_id self) as [k|] eqn:Hk.
    - rewrite (Hkeep k); [|by subst self2]. subst self2. simpl. rewrite Hk. eauto.
    - unfold Model_save_Transaction in Hrun. subst self2. simpl in Hrun.
      rewrite Hk in Hrun. unfold bind, gets, modify, ret in Hrun. simpl in Hrun.
      inversion Hrun. simpl. eauto. }
  split; [by rewrite Hbt|]. split; [by rewrite Hdh|].
  intros Hk. apply Happ. by subst self2.
Qed.

(** A save of a completed transaction whose [completed_at] is set. *)
Lemma Transaction_save_already_completed now (self : Transaction) c (w : World) :
  t_status self = completed ->
  completed_at self = Some c ->
  exists self' w',
    run (Transaction_save now self) w = (Ok self', w') /\
    completed_at self' = Some c /\
    t_status self' = completed /\
    t_beat self' = t_beat self /\
    (is_Some (t_id self) -> self' = self) /\
    beat_table w' = beat_table w /\
    downloadhistory_table w' = downloadhistory_table w.
Proof.
  intros Hs Hc.
  unfold run, Transaction_save, bind. rewrite Hs, Hc. simpl.
  destruct (Model_save_Transaction_run self w) as (self' & w' & Hrun & Hbt & Hdh & Hid & Hkeep & _).
  unfold run in Hrun.
  exists self', w'. split; [exact Hrun|].
  pose proof (set_t_id_inv _ _ Hid) as Hself.
  split; [by rewrite Hself|]. split; [by rewrite Hself|]. split; [by rewrite Hself|].
  split; [|by split].
  intros [k Hk]. by apply (Hkeep k).
Qed.

(** A save of a failed or cancelled transaction runs
    [release_reservation] on the related beat and nothing else on beats. *)
Lemma Transaction_save_failed_or_cancelled now (self : Transaction) b (w : World) :
  t_status self = failed \/ t_status self = cancelled ->
  result (related_beat (t_beat self) (t_beat_id self)) w = Ok b ->
  exists b' wb self' w',
    run (Beat_release_reservation now b) w = (Ok b', wb) /\
    run (Transaction_save now self) w = (Ok self', w') /\
    t_beat self' = Some b' /\
    beat_table w' = beat_table wb.
Proof.
  intros Hs Hb. apply related_beat_run in Hb.
  destruct (release_idempotent now b w) as (b' & wb & Hrel & _).
  exists b', wb.
  set (self2 := set_t_beat (Some b') self).
  destruct (Model_save_Transaction_run self2 wb) as (self' & w' & Hrun & Hbt & _ & Hid & _ & _).
  exists self', w'. split; [exact Hrel|].
  pose proof (set_t_id_inv _ _ Hid) as Hself.
  split; [|split; [by rewrite Hself | exact Hbt]].
  unfold run, Transaction_save, bind in *.
  destruct Hs as [-> | ->]; simpl; rewrite Hb; rewrite Hrel; simpl; exact Hrun.
Qed.

(** A save of a pending transaction touches no beat. *)
Lemma Transaction_save_pending now (self : Transaction) (w : World) :
  t_status self = pending ->
  exists self' w',
    run (Transaction_save now self) w = (Ok self', w') /\
    t_beat self' = t_beat self /\
    beat_table w' = beat_table w.
Proof.
  intros Hs.
  destruct (Model_save_Transaction_run self w) as (self' & w' & Hrun & Hbt & _ & Hid & _ & _).
  exists self', w'.
  pose proof (set_t_id_inv _ _ Hid) as Hself.
  split; [|split; [by rewrite Hself | exact Hbt]].
  unfold run, Transaction_save, bind in *. rewrite Hs. simpl. exact Hrun.
Qed.

(** C5.  The first save of a transaction with status 'completed' sets
    [completed_at] to the time of that save and, in the same call, stores
    the referenced beat as 'sold' with [reserved_until] cleared.  Saving an
    already-completed transaction again, at any later time, leaves
    [completed_at] and every beat as they are. *)
Theorem C5_completed_at_set_once
    (now now' : Z) (self : Transaction) (b : Beat) (w : World) :
  t_status self = completed ->
  completed_at self = None ->
  result (related_beat (t_beat self) (t_beat_id self)) w = Ok b ->
  exists self1 w1 w2,
    run (Transaction_save now self) w = (Ok self1, w1) /\
    completed_at self1 = Some now /\
    stored_status (pk b) w1 = Some sold /\
    (reserved_until <$> (beat_table w1 !! pk b)) = Some None /\
    (status <$> t_beat self1) = Some sold /\
    run (Transaction_save now' self1) w1 = (Ok self1, w2) /\
    beat_table w2 = beat_table w1 /\
    (forall t tx c w0,
       t_status tx = completed -> completed_at tx = Some c ->
       exists tx' w0',
         run (Transaction_save t tx) w0 = (Ok tx', w0') /\
         completed_at tx' = Some c /\
         t_beat tx' = t_beat tx /\
         beat_table w0' = beat_table w0).
Proof.
  intros Hs Hc Hb.
  destruct (Transaction_save_first_completion now self b w Hs Hc Hb)
    as (self1 & w1 & Hrun & Hs1 & Hc1 & Hb1 & Hid1 & Hbt1 & _ & _).
  destruct (Transaction_save_already_completed now' self1 now w1 Hs1 Hc1)
    as (self2 & w2 & Hrun2 & _ & _ & _ & Hsame & Hbt2 & _).
  exists self1, w1, w2.
  split; [exact Hrun|]. split; [exact Hc1|].
  split; [unfold stored_status; rewrite Hbt1, lookup_insert_eq; reflexivity|].
  split; [rewrite Hbt1, lookup_insert_eq; reflexivity|].
  split; [rewrite Hb1; reflexivity|].
  split; [rewrite Hrun2, (Hsame Hid1); reflexivity|].
  split; [exact Hbt2|].
  intros t tx c w0 Hst Hct.
  destruct (Transaction_save_already_completed t tx c w0 Hst Hct)
    as (tx' & w0' & Hr & Hc' & _ & Hb' & _ & Hbt' & _).
  exists tx', w0'. auto.
Qed.

Lemma C5_witness :
  exists self1 w1 w2,
    run (Transaction_save 10
           (mkTransaction None 7 1 (Some Sample.beat) 2500 completed "" None))
        Sample.shop = (Ok self1, w1) /\
    completed_at self1 = Some 10 /\
    stored_status 1 w1 = Some sold /\
    run (Transaction_save 99 self1) w1 = (Ok self1, w2) /\
    beat_table w2 = beat_table w1.
Proof.
  destruct (C5_completed_at_set_once 10 99
              (mkTransaction None 7 1 (Some Sample.beat) 2500 completed "" None)
              Sample.beat Sample.shop eq_refl eq_refl eq_refl)
    as (self1 & w1 & w2 & H1 & H2 & H3 & _ & _ & H4 & H5 & _).
  exists self1, w1, w2. repeat split; assumption.
Defined.

(** C6.  A beat reserved at time [T] stays reserved, with its deadline
    untouched, under [release_reservation] and [is_available] at every
    time [t <= T + 5 min]; at every later time both make it available and
    clear [reserved_until]; releasing again changes nothing;
    [release_reservation] on a beat that is not reserved is a no-op; and
    the save of a failed or cancelled transaction for the beat releases
    the hold under the same condition. *)
Theorem C6_release_only_after_expiry (T : Z) (b : Beat) (w : World) :
  run (Beat_reserve_for_purchase T b) w = (Ok (held T b), w_held T b w) /\
  status (held T b) = reserved /\
  reserved_until (held T b) = Some (T + 300) /\
  (forall t, t <= T + 300 ->
     run (Beat_release_reservation t (held T b)) (w_held T b w)
       = (Ok (held T b), w_held T b w) /\
     run (Beat_is_available t (held T b)) (w_held T b w)
       = (Ok (held T b, false), w_held T b w)) /\
  (forall t, T + 300 < t ->
     run (Beat_release_reservation t (held T b)) (w_held T b w)
       = (Ok (freed T b), w_freed T b w) /\
     run (Beat_is_available t (held T b)) (w_held T b w)
       = (Ok (freed T b, true), w_freed T b w) /\
     status (freed T b) = available /\
     reserved_until (freed T b) = None /\
     beat_table (w_freed T b w) !! pk b = Some (from_db (freed T b)) /\
     forall t', run (Beat_release_reservation t' (freed T b)) (w_freed T b w)
                  = (Ok (freed T b), w_freed T b w)) /\
  (forall t self w0,
     status self <> reserved ->
     run (Beat_release_reservation t self) w0 = (Ok self, w0)) /\
  (forall t self w0, exists self' w',
     run (Beat_release_reservation t self) w0 = (Ok self', w') /\
     run (Beat_release_reservation t self') w' = (Ok self', w')) /\
  (forall t tx,
     t_beat tx = Some (held T b) ->
     t_status tx = failed \/ t_status tx = cancelled ->
     (t <= T + 300 ->
      beat_table (after (Transaction_save t tx) (w_held T b w))
        = beat_table (w_held T b w)) /\
     (T + 300 < t ->
      beat_table (after (Transaction_save t tx) (w_held T b w))
        = beat_table (w_freed T b w))).
Proof.
  split; [reflexivity|]. split; [reflexivity|]. split; [reflexivity|].
  change 300 with five_minutes.
  split; [|split; [|split; [|split]]].
  - intros t Ht. split.
    + by apply release_unexpired.
    + unfold run, Beat_is_available, bind.
      pose proof (release_unexpired T b w t Ht) as H. unfold run in H.
      rewrite H. reflexivity.
  - intros t Ht. split; [by apply release_expired|]. split.
    + unfold run, Beat_is_available, bind.
      pose proof (release_expired T b w t Ht) as H. unfold run in H.
      rewrite H. reflexivity.
    + split; [reflexivity|]. split; [reflexivity|]. split.
      * unfold w_freed. simpl. apply lookup_insert_eq.
      * intros t'. by apply release_not_reserved.
  - intros. by apply release_not_reserved.
  - intros. apply release_idempotent.
  - intros t tx Hb Hst.
    assert (Hrb : result (related_beat (t_beat tx) (t_beat_id tx)) (w_held T b w)
                  = Ok (held T b)) by (by rewrite Hb).
    destruct (Transaction_save_failed_or_cancelled t tx (held T b) (w_held T b w) Hst Hrb)
      as (b' & wb & tx' & w' & Hr & Hrun & _ & Hbt).
    unfold after. unfold run in Hrun. rewrite Hrun. cbn [snd]. rewrite Hbt.
    split; intros Ht.
    + rewrite release_unexpired in Hr by exact Ht. by injection Hr as <- <-.
    + rewrite release_expired in Hr by exact Ht. by injection Hr as <- <-.
Qed.

Lemma C6_witness :
  (200 <= 0 + 300 /\
   run (Beat_is_available 200 (held 0 Sample.beat)) (w_held 0 Sample.beat Sample.shop)
     = (Ok (held 0 Sample.beat, false), w_held 0 Sample.beat Sample.shop)) /\
  (0 + 300 < 301 /\
   run (Beat_is_available 301 (held 0 Sample.beat)) (w_held 0 Sample.beat Sample.shop)
     = (Ok (freed 0 Sample.beat, true), w_freed 0 Sample.beat Sample.shop)) /\
  (status Sample.spent_beat <> reserved /\
   run (Beat_release_reservation 301 Sample.spent_beat) Sample.spent_shop
     = (Ok Sample.spent_beat, Sample.spent_shop)) /\
  beat_table
    (after (Transaction_save 200
              (mkTransaction None 7 1 (Some (held 0 Sample.beat)) 2500 cancelled "" None))
           (w_held 0 Sample.beat Sample.shop))
  = beat_table (w_held 0 Sample.beat Sample.shop).
Proof.
  destruct (C6_release_only_after_expiry 0 Sample.beat Sample.shop)
    as (_ & _ & _ & Hbefore & Hafter & Hother & _ & Hledger).
  split; [split; [lia | apply (Hbefore 200); lia]|].
  split; [split; [lia | apply (Hafter 301); lia]|].
  split; [split; [discriminate | apply Hother; discriminate]|].
  refine (proj1 (Hledger 200
                   (mkTransaction None 7 1 (Some (held 0 Sample.beat)) 2500 cancelled "" None)
                   eq_refl (or_intror eq_refl)) _).
  lia.
Defined.

(** ** The download endpoint *)

Lemma pk_counted b : pk (counted b) = pk b.
Proof. unfold counted. simpl. by destruct (Z.leb _ _). Qed.

Lemma pk_marked b : pk (marked b) = pk b.
Proof. unfold marked. simpl. by destruct (Z.leb _ _). Qed.

Lemma download_count_counted b : download_count (counted b) = download_count b + 1.
Proof. unfold counted. simpl. by destruct (Z.leb _ _). Qed.

Lemma download_count_marked b : download_count (marked b) = download_count b + 1.
Proof. unfold marked. simpl. by destruct (Z.leb _ _). Qed.

Lemma status_counted_downloaded b : status b = downloaded -> status (counted b) = downloaded.
Proof. unfold counted. simpl. by destruct (Z.leb _ _). Qed.

Lemma status_marked_downloaded b : status b = downloaded -> status (marked b) = downloaded.
Proof. unfold marked. simpl. by destruct (Z.leb _ _). Qed.

Lemma Beat_mark_as_downloaded_run (self : Beat) (w : World) :
  run (Beat_mark_as_downloaded self) w
    = (Ok (marked self),
       set_beat_table (<[pk self := from_db (marked self)]> (beat_table w)) w).
Proof.
  unfold run, Beat_mark_as_downloaded, marked, bind, Beat_save, modify, ret. simpl.
  by destruct (Z.leb _ _).
Qed.

Lemma update_beat_download_count_run (instance : DownloadHistory) b (w : World) :
  result (related_beat (dh_beat instance) (dh_beat_id instance)) w = Ok b ->
  run (update_beat_download_count instance true) w
    = (Ok (set_dh_beat (Some (counted b)) instance),
       set_beat_table (<[pk b := from_db (counted b)]> (beat_table w)) w).
Proof.
  intros Hb. apply related_beat_run in Hb.
  unfold run, update_beat_download_count, bind in *. rewrite Hb.
  unfold counted, Beat_save, modify, ret. simpl.
  by destruct (Z.leb _ _).
Qed.

Section DownloadEndpoint.

Variables (init : ModelInit) (now : Z) (request : HttpRequest) (beat_id : Z) (w : World).

Lemma download_beat_not_found :
  beat_table w !! beat_id = None ->
  run (download_beat init now request beat_id) w = (Raise Http404, w).
Proof.
  intros Hrow. unfold download_beat.
  apply run_bind_raise. unfold get_object_or_404. step_gets. by rewrite Hrow.
Qed.

Variables (row : Beat) (buyer : Z).
Hypothesis Hrow : beat_table w !! beat_id = Some row.
Hypothesis Hbuyer : user_buyer_profile request = Some buyer.

(** The endpoint up to its purchase check. *)
Ltac enter :=
  unfold download_beat;
  step_with ltac:(apply get_object_or_404_run; exact Hrow);
  step_with ltac:(apply buyer_profile_run; exact Hbuyer);
  step_gets;
  change (has_completed_transaction buyer (from_db row) w)
    with (has_completed_transaction buyer row w).

Lemma download_beat_not_purchased :
  has_completed_transaction buyer row w = false ->
  run (download_beat init now request beat_id) w
    = (Ok (HttpResponseForbidden "You have not purchased this beat."), w).
Proof. intros Hp. enter. by rewrite Hp. Qed.

Hypothesis Hpurchased : has_completed_transaction buyer row w = true.

Ltac enter_purchased :=
  enter; rewrite Hpurchased; cbn [negb]; step_gets;
  change (os_path_exists (audio_file (from_db row)) w)
    with (os_path_exists (audio_file row) w).

Lemma download_beat_file_missing :
  os_path_exists (audio_file row) w = false ->
  run (download_beat init now request beat_id) w
    = (Ok (HttpResponseForbidden "File does not exist."), w).
Proof. intros Hf. enter_purchased. by rewrite Hf. Qed.

Hypothesis Hfile : os_path_exists (audio_file row) w = true.

Lemma download_beat_strict :
  init = StrictInit ->
  run (download_beat init now request beat_id) w = (Raise TypeError, w).
Proof.
  intros ->. enter_purchased. rewrite Hfile.
  apply run_bind_raise. unfold DownloadHistory_objects_create.
  by apply run_bind_raise.
Qed.

Hypothesis Hpk : pk row = beat_id.

Lemma download_beat_lenient :
  init = LenientInit ->
  exists w',
    run (download_beat init now request beat_id) w
      = (Ok (FileResponse (audio_file row)), w') /\
    downloadhistory_table w'
      = downloadhistory_table w
        ++ [mkDownloadHistory (Some (fresh_pk (map dh_id (downloadhistory_table w))))
                              beat_id None buyer now None] /\
    beat_table w' !! beat_id = Some (from_db (marked (counted (from_db row)))) /\
    (forall k, k <> beat_id -> beat_table w' !! k = beat_table w !! k) /\
    transaction_table w' = transaction_table w.
Proof.
  intros ->. enter_purchased. rewrite Hfile.
  unfold DownloadHistory_objects_create.
  erewrite run_bind; cycle 1.
  { step_with ltac:(apply run_ret). step_gets. step_modify.
    step_with ltac:(apply update_beat_download_count_run; reflexivity).
    step_with ltac:(apply run_ret). apply run_ret. }
  cbv beta.
  step_with ltac:(apply run_ret).
  step_with ltac:(apply Beat_mark_as_downloaded_run).
  rewrite pk_counted. change (pk (from_db row)) with (pk row). rewrite Hpk.
  eexists. split; [apply run_ret|].
  split; [reflexivity|].
  cbn [beat_table set_beat_table set_downloadhistory_table transaction_table].
  split; [apply lookup_insert_eq|]. split; [|reflexivity].
  intros k Hk. by rewrite !lookup_insert_ne.
Qed.

End DownloadEndpoint.

Lemma download_beat_anonymous init now request beat_id (w : World) row :
  beat_table w !! beat_id = Some row ->
  user_buyer_profile request = None ->
  run (download_beat init now request beat_id) w = (Raise AttributeError, w).
Proof.
  intros Hrow Hanon. unfold download_beat.
  step_with ltac:(apply get_object_or_404_run; exact Hrow).
  apply run_bind_raise. unfold buyer_profile. by rewrite Hanon.
Qed.

Lemma paid_shop_beats : beat_table Sample.paid_shop = {[ 1 := purchased Sample.beat ]}.
Proof. reflexivity. Qed.

Lemma paid_shop_quota : quota_respected Sample.paid_shop.
Proof.
  intros k b. rewrite paid_shop_beats.
  intros [<- <-]%lookup_singleton_Some. cbn. lia.
Qed.

(** C1 fails on the code.  Whenever the buyer has a completed transaction
    for the beat and the audio file exists, the stored [download_count]
    does not grow by exactly one.  With the ORM rejecting the keyword
    [download_count] that is no field of DownloadHistory, the endpoint
    raises [TypeError] before it writes anything: no row, no increment, no
    asset.  With the keyword accepted, the asset is returned and one row
    is created, but the count grows by two: once in the receiver
    [update_beat_download_count], once in [mark_as_downloaded]. *)
Theorem C1_delivery_never_counts_exactly_once
    (init : ModelInit) (now : Z) (request : HttpRequest) (beat_id : Z)
    (w : World) (row : Beat) (buyer : Z) :
  beat_table w !! beat_id = Some row ->
  pk row = beat_id ->
  user_buyer_profile request = Some buyer ->
  has_completed_transaction buyer row w = true ->
  os_path_exists (audio_file row) w = true ->
  stored_download_count beat_id (after (download_beat init now request beat_id) w)
    <> Some (download_count row + 1) /\
  match init with
  | StrictInit =>
      run (download_beat init now request beat_id) w = (Raise TypeError, w)
  | LenientInit =>
      result (download_beat init now request beat_id) w
        = Ok (FileResponse (audio_file row)) /\
      length (downloadhistory_table (after (download_beat init now request beat_id) w))
        = S (length (downloadhistory_table w)) /\
      stored_download_count beat_id (after (download_beat init now request beat_id) w)
        = Some (download_count row + 2)
  end.
Proof.
  intros Hrow Hpk Hbuyer Hpurchased Hfile.
  destruct init.
  - pose proof (download_beat_strict StrictInit now request beat_id w row buyer
                  Hrow Hbuyer Hpurchased Hfile eq_refl) as Hrun.
    split; [|exact Hrun].
    unfold after. unfold run in Hrun. rewrite Hrun. cbn [snd].
    unfold stored_download_count. rewrite Hrow. cbn. intros [=]. lia.
  - destruct (download_beat_lenient LenientInit now request beat_id w row buyer
                Hrow Hbuyer Hpurchased Hfile Hpk eq_refl)
      as (w' & Hrun & Hhist & Hbeat & _ & _).
    unfold run in Hrun.
    assert (Hcount : stored_download_count beat_id
                       (after (download_beat LenientInit now request beat_id) w)
                     = Some (download_count row + 2)).
    { unfold after, stored_download_count. rewrite Hrun. cbn [snd]. rewrite Hbeat.
      cbn [fmap option_fmap option_map].
      change (download_count (from_db (marked (counted (from_db row)))))
        with (download_count (marked (counted (from_db row)))).
      rewrite download_count_marked, download_count_counted.
      change (download_count (from_db row)) with (download_count row).
      f_equal. lia. }
    split; [rewrite Hcount; intros [=]; lia|].
    split; [unfold result; by rewrite Hrun|].
    split; [|exact Hcount].
    unfold after. rewrite Hrun. cbn [snd]. rewrite Hhist, length_app. cbn. lia.
Qed.

Lemma C1_witness :
  stored_download_count 1
    (after (download_beat LenientInit 20 Sample.request 1) Sample.paid_shop)
  <> Some (0 + 1).
Proof.
  refine (proj1 (C1_delivery_never_counts_exactly_once LenientInit 20 Sample.request 1
                   Sample.paid_shop (purchased Sample.beat) 7 _ _ _ _ _));
    reflexivity.
Defined.

(** C2 fails on the code.  Nothing compares [download_count] with
    [max_downloads] before counting: [mark_as_downloaded] stores the count
    plus one whatever the quota is, and so does the receiver run at every
    history creation.  In the shop where buyer 7 has paid for a beat with
    [max_downloads = 1] the invariant holds; after two history creations it
    does not, however the ORM treats the unknown keyword; and when the
    keyword is accepted a single delivery already stores 2 > 1. *)
Theorem C2_quota_can_be_exceeded :
  quota_respected Sample.paid_shop /\
  (forall init,
     stored_download_count 1
       (run_ops init [CreateHistory 20 7 1; CreateHistory 30 7 1] Sample.paid_shop)
     = Some 2 /\
     ~ quota_respected
         (run_ops init [CreateHistory 20 7 1; CreateHistory 30 7 1] Sample.paid_shop)) /\
  stored_download_count 1
    (run_ops LenientInit [Download 20 Sample.request 1] Sample.paid_shop) = Some 2 /\
  ~ quota_respected (run_ops LenientInit [Download 20 Sample.request 1] Sample.paid_shop) /\
  (forall b w,
     stored_download_count (pk b) (after (Beat_mark_as_downloaded b) w)
     = Some (download_count b + 1)) /\
  (forall instance b w,
     stored_download_count (pk b)
       (after (update_beat_download_count (set_dh_beat (Some b) instance) true) w)
     = Some (download_count b + 1)).
Proof.
  split; [exact paid_shop_quota|].
  split.
  { intros init. split; [by destruct init|].
    intros Hq.
    assert (H : beat_table (run_ops init [CreateHistory 20 7 1; CreateHistory 30 7 1]
                              Sample.paid_shop) !! 1
                = Some (mkBeat 1 1 "beats/a.mp3" 2500 downloaded None 2 1 None))
      by (by destruct init).
    apply Hq in H. vm_compute in H. by apply H. }
  split; [reflexivity|].
  split.
  { intros Hq.
    assert (H : beat_table (run_ops LenientInit [Download 20 Sample.request 1]
                              Sample.paid_shop) !! 1
                = Some (mkBeat 1 1 "beats/a.mp3" 2500 downloaded None 2 1 None))
      by reflexivity.
    apply Hq in H. vm_compute in H. by apply H. }
  split.
  - intros b w. unfold after.
    pose proof (Beat_mark_as_downloaded_run b w) as Hrun. unfold run in Hrun.
    rewrite Hrun. unfold stored_download_count. cbn [snd beat_table set_beat_table].
    rewrite lookup_insert_eq. cbn [fmap option_fmap option_map].
    change (download_count (from_db (marked b))) with (download_count (marked b)).
    by rewrite download_count_marked.
  - intros instance b w. unfold after.
    pose proof (update_beat_download_count_run (set_dh_beat (Some b) instance) b w) as Hrun.
    unfold run, result in Hrun. rewrite Hrun; [|reflexivity].
    unfold stored_download_count. cbn [snd beat_table set_beat_table].
    rewrite lookup_insert_eq. cbn [fmap option_fmap option_map].
    change (download_count (from_db (counted b))) with (download_count (counted b)).
    by rewrite download_count_counted.
Qed.

(** C3 fails on the code.  For a logged-in buyer and an existing beat the
    endpoint first refuses a buyer without a completed transaction for
    the beat, and it reports a missing file; but it never asks
    [is_downloadable].  A purchased beat whose quota is used up is
    answered exactly like a fresh one: "File does not exist." when the
    file is missing, and otherwise the delivery path is taken (the asset
    is returned when the ORM accepts the unknown keyword, [TypeError] when
    it rejects it). *)
Theorem C3_no_quota_check
    (init : ModelInit) (now : Z) (request : HttpRequest) (beat_id : Z)
    (w : World) (row : Beat) (buyer : Z) :
  beat_table w !! beat_id = Some row ->
  pk row = beat_id ->
  user_buyer_profile request = Some buyer ->
  (has_completed_transaction buyer row w = false ->
   run (download_beat init now request beat_id) w
     = (Ok (HttpResponseForbidden "You have not purchased this beat."), w)) /\
  (has_completed_transaction buyer row w = true ->
   Beat_is_downloadable (from_db row) = false ->
   (os_path_exists (audio_file row) w = false ->
    run (download_beat init now request beat_id) w
      = (Ok (HttpResponseForbidden "File does not exist."), w)) /\
   (os_path_exists (audio_file row) w = true ->
    result (download_beat init now request beat_id) w
      = match init with
        | StrictInit => Raise TypeError
        | LenientInit => Ok (FileResponse (audio_file row))
        end)).
Proof.
  intros Hrow Hpk Hbuyer. split.
  - intros Hp. by eapply download_beat_not_purchased.
  - intros Hp _. split.
    + intros Hf. by eapply download_beat_file_missing.
    + intros Hf. destruct init.
      * unfold result.
        pose proof (download_beat_strict StrictInit now request beat_id w row buyer
                      Hrow Hbuyer Hp Hf eq_refl) as Hrun.
        unfold run in Hrun. by rewrite Hrun.
      * destruct (download_beat_lenient LenientInit now request beat_id w row buyer
                    Hrow Hbuyer Hp Hf Hpk eq_refl) as (w' & Hrun & _).
        unfold result. unfold run in Hrun. by rewrite Hrun.
Qed.

(** The second download of a beat with [max_downloads = 1] is delivered
    again, and with the file gone the answer is "File does not exist.". *)
Lemma C3_witness :
  Beat_is_downloadable Sample.spent_beat = false /\
  result (download_beat LenientInit 40 Sample.request 1) Sample.spent_shop
    = Ok (FileResponse "beats/a.mp3") /\
  run (download_beat LenientInit 40 Sample.request 1) Sample.spent_shop_no_file
    = (Ok (HttpResponseForbidden "File does not exist."), Sample.spent_shop_no_file).
Proof.
  split; [reflexivity|]. split.
  - refine (proj2 (proj2 (C3_no_quota_check LenientInit 40 Sample.request 1
               Sample.spent_shop Sample.spent_beat 7 _ _ _) _ _) _); reflexivity.
  - refine (proj1 (proj2 (C3_no_quota_check LenientInit 40 Sample.request 1
               Sample.spent_shop_no_file Sample.spent_beat 7 _ _ _) _ _) _); reflexivity.
Defined.

(** ** The 'downloaded' status *)

(** C7 as stated fails.  In the sample shop the beat is stored as
    'downloaded'.  A successful payment callback for it stores it as
    'sold', as does the save of any new completed transaction for it;
    reserving it stores it as 'reserved'. *)
Lemma C7_counterexample :
  stored_status 1 Sample.spent_checkout_shop = Some downloaded /\
  stored_status 1
    (after (payment_response StrictInit 50 51 (Sample.callback "successful"))
           Sample.spent_checkout_shop) = Some sold /\
  stored_status 1
    (after (payment_response LenientInit 50 51 (Sample.callback "successful"))
           Sample.spent_checkout_shop) = Some sold /\
  stored_status 1
    (run_ops StrictInit
       [SaveTransaction 50 (mkTransaction None 8 1 None 2500 completed "" None)]
       Sample.spent_shop) = Some sold /\
  stored_status 1 (run_ops StrictInit [Reserve 50 1] Sample.spent_shop) = Some reserved.
Proof. repeat (split; [reflexivity|]). reflexivity. Qed.

Lemma download_beat_keeps_downloaded init now request (w : World) (self : Beat) :
  status self = downloaded ->
  beat_table w !! pk self = Some self ->
  stored_status (pk self) (after (download_beat init now request (pk self)) w)
    = Some downloaded.
Proof.
  intros Hs Hrow.
  assert (Hkeep : stored_status (pk self) w = Some downloaded)
    by (unfold stored_status; rewrite Hrow; cbn; by rewrite Hs).
  unfold after.
  destruct (user_buyer_profile request) as [buyer|] eqn:Hbuyer.
  2: { pose proof (download_beat_anonymous init now request _ w self Hrow Hbuyer) as H.
       unfold run in H. by rewrite H. }
  destruct (has_completed_transaction buyer self w) eqn:Hp.
  2: { pose proof (download_beat_not_purchased init now request _ w self buyer
                     Hrow Hbuyer Hp) as H.
       unfold run in H. by rewrite H. }
  destruct (os_path_exists (audio_file self) w) eqn:Hf.
  2: { pose proof (download_beat_file_missing init now request _ w self buyer
                     Hrow Hbuyer Hp Hf) as H.
       unfold run in H. by rewrite H. }
  destruct init.
  - pose proof (download_beat_strict StrictInit now request _ w self buyer
                  Hrow Hbuyer Hp Hf eq_refl) as H.
    unfold run in H. by rewrite H.
  - destruct (download_beat_lenient LenientInit now request _ w self buyer
                Hrow Hbuyer Hp Hf eq_refl eq_refl) as (w' & H & _ & Hbeat & _).
    unfold run in H. rewrite H. cbn [snd]. unfold stored_status. rewrite Hbeat.
    cbn [fmap option_fmap option_map]. f_equal.
    change (status (from_db (marked (counted (from_db self)))))
      with (status (marked (counted (from_db self)))).
    by apply status_marked_downloaded, status_counted_downloaded.
Qed.

(** C7, amended.  A beat whose status is 'downloaded' keeps that status
    under [release_reservation], [is_available], [mark_as_downloaded], the
    history-creation receiver, the download endpoint, and every
    [Transaction.save] except the first save of a completed transaction;
    [reserve_for_purchase] stores it as 'reserved' and the first save of a
    completed transaction stores it as 'sold'. *)
Theorem C7_downloaded_left_by_reserve_and_completion_only (self : Beat) (w : World) :
  status self = downloaded ->
  (forall t, run (Beat_release_reservation t self) w = (Ok self, w)) /\
  (forall t, run (Beat_is_available t self) w = (Ok (self, false), w)) /\
  (status (marked self) = downloaded /\
   result (Beat_mark_as_downloaded self) w = Ok (marked self) /\
   stored_status (pk self) (after (Beat_mark_as_downloaded self) w) = Some downloaded) /\
  (forall instance,
     dh_beat instance = Some self ->
     stored_status (pk self) (after (update_beat_download_count instance true) w)
       = Some downloaded) /\
  (forall t tx,
     t_beat tx = Some self ->
     ~ (t_status tx = completed /\ completed_at tx = None) ->
     beat_table (after (Transaction_save t tx) w) = beat_table w /\
     exists tx', result (Transaction_save t tx) w = Ok tx' /\ t_beat tx' = Some self) /\
  (forall init t request,
     beat_table w !! pk self = Some self ->
     stored_status (pk self) (after (download_beat init t request (pk self)) w)
       = Some downloaded) /\
  (forall t,
     stored_status (pk self) (after (Beat_reserve_for_purchase t self) w) = Some reserved) /\
  (forall t tx,
     t_beat tx = Some self -> t_status tx = completed -> completed_at tx = None ->
     stored_status (pk self) (after (Transaction_save t tx) w) = Some sold).
Proof.
  intros Hs.
  assert (Hrel : forall t, run (Beat_release_reservation t self) w = (Ok self, w)).
  { intros t. apply release_not_reserved. by rewrite Hs. }
  split; [exact Hrel|]. split.
  { intros t. unfold Beat_is_available. step_with ltac:(apply Hrel).
    rewrite run_ret, Hs. reflexivity. }
  split.
  { split; [by apply status_marked_downloaded|].
    pose proof (Beat_mark_as_downloaded_run self w) as Hrun. unfold run in Hrun.
    unfold result, after, stored_status. rewrite Hrun. split; [reflexivity|].
    cbn [snd beat_table set_beat_table]. rewrite lookup_insert_eq.
    cbn [fmap option_fmap option_map]. f_equal.
    change (status (from_db (marked self))) with (status (marked self)).
    by apply status_marked_downloaded. }
  split.
  { intros instance Hb.
    pose proof (update_beat_download_count_run instance self w) as Hrun.
    unfold run, result in Hrun. unfold after, stored_status.
    rewrite Hrun; [|by rewrite Hb].
    cbn [snd beat_table set_beat_table]. rewrite lookup_insert_eq.
    cbn [fmap option_fmap option_map]. f_equal.
    change (status (from_db (counted self))) with (status (counted self)).
    by apply status_counted_downloaded. }
  split.
  { intros t tx Hb Hnot.
    assert (Hrb : result (related_beat (t_beat tx) (t_beat_id tx)) w = Ok self)
      by (by rewrite Hb).
    unfold after, result.
    destruct (t_status tx) eqn:Hst.
    - destruct (Transaction_save_pending t tx w Hst) as (tx' & w' & Hrun & Hb' & Hbt).
      unfold run in Hrun. rewrite Hrun. split; [exact Hbt|].
      exists tx'. split; [reflexivity | congruence].
    - destruct (completed_at tx) as [c|] eqn:Hc; [|by destruct Hnot].
      destruct (Transaction_save_already_completed t tx c w Hst Hc)
        as (tx' & w' & Hrun & _ & _ & Hb' & _ & Hbt & _).
      unfold run in Hrun. rewrite Hrun. split; [exact Hbt|].
      exists tx'. split; [reflexivity | congruence].
    - destruct (Transaction_save_failed_or_cancelled t tx self w (or_introl Hst) Hrb)
        as (b' & wb & tx' & w' & Hr & Hrun & Hb' & Hbt).
      rewrite Hrel in Hr. injection Hr as <- <-.
      unfold run in Hrun. rewrite Hrun. split; [exact Hbt|].
      exists tx'. split; [reflexivity | exact Hb'].
    - destruct (Transaction_save_failed_or_cancelled t tx self w (or_intror Hst) Hrb)
        as (b' & wb & tx' & w' & Hr & Hrun & Hb' & Hbt).
      rewrite Hrel in Hr. injection Hr as <- <-.
      unfold run in Hrun. rewrite Hrun. split; [exact Hbt|].
      exists tx'. split; [reflexivity | exact Hb']. }
  split.
  { intros init t request Hrow. by apply download_beat_keeps_downloaded. }
  split.
  { intros t. unfold after, stored_status.
    pose proof (reserve_for_purchase_run t self w) as Hrun. unfold run in Hrun.
    rewrite Hrun. cbn [snd]. unfold w_held. cbn [beat_table set_beat_table].
    by rewrite lookup_insert_eq. }
  intros t tx Hb Hst Hc.
  assert (Hrb : result (related_beat (t_beat tx) (t_beat_id tx)) w = Ok self)
    by (by rewrite Hb).
  destruct (Transaction_save_first_completion t tx self w Hst Hc Hrb)
    as (tx' & w' & Hrun & _ & _ & _ & _ & Hbt & _).
  unfold run in Hrun. unfold after, stored_status. rewrite Hrun. cbn [snd].
  by rewrite Hbt, lookup_insert_eq.
Qed.

Lemma C7_witness :
  status Sample.spent_beat = downloaded /\
  stored_status 1 (after (download_beat LenientInit 40 Sample.request 1) Sample.spent_shop)
    = Some downloaded /\
  stored_status 1 (after (Beat_reserve_for_purchase 40 Sample.spent_beat) Sample.spent_shop)
    = Some reserved.
Proof.
  destruct (C7_downloaded_left_by_reserve_and_completion_only
              Sample.spent_beat Sample.spent_shop eq_refl)
    as (_ & _ & _ & _ & _ & Hdl & Hres & _).
  split; [reflexivity|]. split.
  - apply (Hdl LenientInit 40 Sample.request). reflexivity.
  - apply (Hres 40).
Defined.

(** ** The payment callback *)

Section PaymentCallback.

Variables (init : ModelInit) (now now' : Z) (request : HttpRequest) (w : World).
Variables (bid : Z) (row : Beat).
Hypothesis Hsession : session_current_beat_id w = Some bid.
Hypothesis Hbid : bid <> 0.
Hypothesis Hrow : beat_table w !! bid = Some row.

(** The view up to its dispatch on [status]. *)
Ltac enter :=
  unfold payment_response; step_gets; rewrite Hsession;
  destruct bid as [|p|p]; [congruence | |]; cbv beta iota;
  (step_with ltac:(apply get_object_or_404_run; exact Hrow));
  step_modify.

Lemma payment_response_cancelled :
  GET_status request = Some "cancelled" ->
  run (payment_response init now now' request) w
    = (Ok (Redirected (main_detail (album row)) "Payment was cancelled. Please try again."),
       set_session_current_beat_id None w).
Proof.
  intros Hst. enter; rewrite Hst;
    rewrite bool_decide_eq_false_2 by discriminate;
    rewrite bool_decide_eq_true_2 by reflexivity; reflexivity.
Qed.

Lemma payment_response_failed :
  GET_status request <> Some "successful" ->
  GET_status request <> Some "cancelled" ->
  run (payment_response init now now' request) w
    = (Ok (Redirected (main_detail (album row)) "Payment failed. Please try again."),
       set_session_current_beat_id None w).
Proof.
  intros Hs Hc. enter;
    rewrite bool_decide_eq_false_2 by exact Hs;
    rewrite bool_decide_eq_false_2 by exact Hc; reflexivity.
Qed.

Variable buyer : Z.
Hypothesis Hbuyer : user_buyer_profile request = Some buyer.
Hypothesis Hsuccessful : GET_status request = Some "successful".

Lemma payment_response_successful :
  exists tx w1,
    run (Transaction_objects_create now buyer (from_db row) (price row) completed)
        (set_session_current_beat_id None w) = (Ok tx, w1) /\
    run (payment_response init now now' request) w
      = run (deliver init now' request beat_id_global) w1 /\
    tx = mkTransaction (t_id tx) buyer (pk row) (Some (purchased (from_db row)))
                       (price row) completed "" (Some now) /\
    is_Some (t_id tx) /\
    transaction_table w1 = transaction_table w ++ [set_t_beat None tx] /\
    beat_table w1 = <[pk row := from_db (purchased (from_db row))]> (beat_table w) /\
    downloadhistory_table w1 = downloadhistory_table w /\
    media w1 = media w.
Proof.
  set (w0 := set_session_current_beat_id None w).
  set (self := mkTransaction None buyer (pk row) (Some (from_db row)) (price row)
                             completed "" None).
  destruct (Transaction_save_first_completion now self (from_db row) w0
              eq_refl eq_refl eq_refl)
    as (tx & w1 & Hrun & Hst & Hc & Hb & Hid & Hbt & Hdh & Htt).
  exists tx, w1. split; [exact Hrun|].
  split.
  { enter; rewrite Hsuccessful; rewrite bool_decide_eq_true_2 by reflexivity;
      (step_with ltac:(apply buyer_profile_run; exact Hbuyer));
      (step_with ltac:(exact Hrun)); reflexivity. }
  assert (Hmedia : media w1 = media w /\
          tx = mkTransaction (t_id tx) buyer (pk row) (Some (purchased (from_db row)))
                             (price row) completed "" (Some now)).
  { unfold run, Transaction_save, bind in Hrun. cbn in Hrun.
    injection Hrun as <- <-. split; reflexivity. }
  destruct Hmedia as [Hmedia Htx].
  split; [exact Htx|]. split; [exact Hid|].
  split; [by apply Htt|]. split; [exact Hbt|]. split; [exact Hdh | exact Hmedia].
Qed.

End PaymentCallback.

(** C8 as stated fails.  During the sample checkout the ledger is empty.
    After a callback with status 'cancelled', and after one with status
    'declined', it is still empty: no transaction in 'cancelled' or
    'failed' has been recorded. *)
Lemma C8_counterexample :
  transaction_table Sample.checkout_shop = [] /\
  transaction_table
    (after (payment_response LenientInit 20 21 (Sample.callback "cancelled"))
           Sample.checkout_shop) = [] /\
  transaction_table
    (after (payment_response LenientInit 20 21 (Sample.callback "declined"))
           Sample.checkout_shop) = [].
Proof. split; [reflexivity|]. split; reflexivity. Qed.

(** C8, amended.  For a callback whose session names an existing beat:
    status 'successful' adds one transaction to the ledger, in
    'completed', for the logged-in buyer and that beat, with the beat's
    price as amount and [completed_at] set, stores the beat as 'sold',
    and then runs the download endpoint; status 'cancelled' and every
    other status write nothing to the ledger, deliver nothing, and
    redirect to the beat's album with an error message. *)
Theorem C8_callback_dispatch
    (init : ModelInit) (now now' : Z) (request : HttpRequest) (w : World)
    (bid : Z) (row : Beat) :
  session_current_beat_id w = Some bid ->
  bid <> 0 ->
  beat_table w !! bid = Some row ->
  pk row = bid ->
  (forall buyer,
     GET_status request = Some "successful" ->
     user_buyer_profile request = Some buyer ->
     exists tx w1 delivered_id,
       run (Transaction_objects_create now buyer (from_db row) (price row) completed)
           (set_session_current_beat_id None w) = (Ok tx, w1) /\
       transaction_table w1 = transaction_table w ++ [set_t_beat None tx] /\
       t_status tx = completed /\
       completed_at tx = Some now /\
       t_buyer tx = buyer /\
       t_beat_id tx = bid /\
       amount tx = price row /\
       stored_status bid w1 = Some sold /\
       run (payment_response init now now' request) w
         = run (deliver init now' request delivered_id) w1) /\
  (GET_status request = Some "cancelled" ->
   run (payment_response init now now' request) w
     = (Ok (Redirected (main_detail (album row)) "Payment was cancelled. Please try again."),
        set_session_current_beat_id None w)) /\
  (GET_status request <> Some "successful" ->
   GET_status request <> Some "cancelled" ->
   run (payment_response init now now' request) w
     = (Ok (Redirected (main_detail (album row)) "Payment failed. Please try again."),
        set_session_current_beat_id None w)) /\
  transaction_table (set_session_current_beat_id None w) = transaction_table w /\
  downloadhistory_table (set_session_current_beat_id None w) = downloadhistory_table w /\
  beat_table (set_session_current_beat_id None w) = beat_table w.
Proof.
  intros Hsession Hbid Hrow Hpk.
  split.
  { intros buyer Hst Hbuyer.
    destruct (payment_response_successful init now now' request w bid row
                Hsession Hbid Hrow buyer Hbuyer Hst)
      as (tx & w1 & Hrun & Hpr & Htx & _ & Htt & Hbt & _).
    exists tx, w1, beat_id_global.
    split; [exact Hrun|]. split; [exact Htt|].
    rewrite Htx. cbn [t_status completed_at t_buyer t_beat_id amount].
    do 3 (split; [reflexivity|]). split; [exact Hpk|]. split; [reflexivity|].
    split; [|exact Hpr].
    unfold stored_status. rewrite Hbt, Hpk, lookup_insert_eq. reflexivity. }
  split; [exact (payment_response_cancelled init now now' request w bid row
                   Hsession Hbid Hrow)|].
  split; [exact (payment_response_failed init now now' request w bid row
                   Hsession Hbid Hrow)|].
  split; [reflexivity|]. split; reflexivity.
Qed.

Lemma C8_witness :
  exists tx w1 delivered_id,
    transaction_table w1 = [set_t_beat None tx] /\
    t_status tx = completed /\
    stored_status 1 w1 = Some sold /\
    run (payment_response LenientInit 20 21 (Sample.callback "successful"))
        Sample.checkout_shop
      = run (deliver LenientInit 21 (Sample.callback "successful") delivered_id) w1.
Proof.
  destruct (proj1 (C8_callback_dispatch LenientInit 20 21 (Sample.callback "successful")
                     Sample.checkout_shop 1 Sample.beat eq_refl ltac:(discriminate)
                     eq_refl eq_refl) 7 eq_refl eq_refl)
    as (tx & w1 & d & _ & H1 & H2 & _ & _ & _ & _ & H3 & H4).
  exists tx, w1, d. repeat split; assumption.
Defined.

(** ** Which beat the callback delivers *)

Lemma after_deliver init now request beat_id (w : World) :
  after (deliver init now request beat_id) w
    = after (download_beat init now request beat_id) w.
Proof.
  unfold after, deliver, bind.
  by destruct (download_beat init now request beat_id w) as [[r|e] w'].
Qed.

(** The download endpoint writes to the beat it is asked for and to no
    other, and adds history rows for that beat only. *)
Lemma download_beat_frame init now request beat_id (w : World) k :
  keyed_by_pk w ->
  k <> beat_id ->
  beat_table (after (download_beat init now request beat_id) w) !! k = beat_table w !! k /\
  history_of k (after (download_beat init now request beat_id) w) = history_of k w.
Proof.
  intros Hkeyed Hk. unfold after.
  destruct (beat_table w !! beat_id) as [row|] eqn:Hrow.
  2: { pose proof (download_beat_not_found init now request beat_id w Hrow) as H.
       unfold run in H. by rewrite H. }
  destruct (user_buyer_profile request) as [buyer|] eqn:Hbuyer.
  2: { pose proof (download_beat_anonymous init now request _ w row Hrow Hbuyer) as H.
       unfold run in H. by rewrite H. }
  destruct (has_completed_transaction buyer row w) eqn:Hp.
  2: { pose proof (download_beat_not_purchased init now request _ w row buyer
                     Hrow Hbuyer Hp) as H.
       unfold run in H. by rewrite H. }
  destruct (os_path_exists (audio_file row) w) eqn:Hf.
  2: { pose proof (download_beat_file_missing init now request _ w row buyer
                     Hrow Hbuyer Hp Hf) as H.
       unfold run in H. by rewrite H. }
  destruct init.
  - pose proof (download_beat_strict StrictInit now request _ w row buyer
                  Hrow Hbuyer Hp Hf eq_refl) as H.
    unfold run in H. by rewrite H.
  - destruct (download_beat_lenient LenientInit now request _ w row buyer
                Hrow Hbuyer Hp Hf (Hkeyed _ _ Hrow) eq_refl)
      as (w' & H & Hhist & _ & Hother & _).
    unfold run in H. rewrite H. cbn [snd]. split; [by apply Hother|].
    unfold history_of. rewrite Hhist, filter_app.
    rewrite filter_cons_False by (cbn; congruence).
    by rewrite filter_nil, app_nil_r.
Qed.

(** C9.  [beat_id_global] is 0.  A successful callback whose session names
    beat [bid] either stops at "Invalid payment session" (when [bid] is 0)
    or writes the ledger and then asks the download endpoint for beat
    [beat_id_global], which is not [bid]: whatever that delivery does, the
    paid beat's download count and download history are as they were
    before the callback. *)
Theorem C9_delivery_is_for_beat_id_global
    (init : ModelInit) (now now' : Z) (request : HttpRequest) (w : World)
    (bid : Z) (row : Beat) (buyer : Z) :
  keyed_by_pk w ->
  session_current_beat_id w = Some bid ->
  beat_table w !! bid = Some row ->
  GET_status request = Some "successful" ->
  user_buyer_profile request = Some buyer ->
  beat_id_global = 0 /\
  (bid = 0 ->
   run (payment_response init now now' request) w
     = (Ok (Redirected main_index "Invalid payment session. Please try again."), w)) /\
  (bid <> 0 ->
   bid <> beat_id_global /\
   (exists tx w1,
      run (Transaction_objects_create now buyer (from_db row) (price row) completed)
          (set_session_current_beat_id None w) = (Ok tx, w1) /\
      run (payment_response init now now' request) w
        = run (deliver init now' request beat_id_global) w1) /\
   stored_download_count bid (after (payment_response init now now' request) w)
     = Some (download_count row) /\
   history_of bid (after (payment_response init now now' request) w)
     = history_of bid w).
Proof.
  intros Hkeyed Hsession Hrow Hst Hbuyer.
  split; [reflexivity|]. split.
  { intros ->. unfold payment_response. step_gets. by rewrite Hsession. }
  intros Hbid. split; [exact Hbid|].
  destruct (payment_response_successful init now now' request w bid row
              Hsession Hbid Hrow buyer Hbuyer Hst)
    as (tx & w1 & Hrun & Hpr & _ & _ & _ & Hbt & Hdh & _).
  pose proof (Hkeyed _ _ Hrow) as Hpk.
  split; [by exists tx, w1|].
  assert (Hkeyed1 : keyed_by_pk w1).
  { intros k b. rewrite Hbt. intros [[<- <-] | [_ Hb]]%lookup_insert_Some.
    - reflexivity.
    - by apply Hkeyed. }
  assert (Hafter : after (payment_response init now now' request) w
                   = after (download_beat init now' request beat_id_global) w1).
  { rewrite <- after_deliver. unfold after. unfold run in Hpr. by rewrite Hpr. }
  destruct (download_beat_frame init now' request beat_id_global w1 bid Hkeyed1 Hbid)
    as [Hbeat Hhist].
  rewrite Hafter. split.
  - unfold stored_download_count. rewrite Hbeat, Hbt, Hpk, lookup_insert_eq. reflexivity.
  - rewrite Hhist. unfold history_of. by rewrite Hdh.
Qed.

Lemma checkout_shop_keyed : keyed_by_pk Sample.checkout_shop.
Proof.
  intros k b. unfold Sample.checkout_shop. cbn [beat_table].
  by intros [<- <-]%lookup_singleton_Some.
Qed.

Lemma C9_witness :
  1 <> beat_id_global /\
  stored_download_count 1
    (after (payment_response LenientInit 20 21 (Sample.callback "successful"))
           Sample.checkout_shop) = Some 0 /\
  history_of 1
    (after (payment_response LenientInit 20 21 (Sample.callback "successful"))
           Sample.checkout_shop) = [].
Proof.
  destruct (C9_delivery_is_for_beat_id_global LenientInit 20 21
              (Sample.callback "successful") Sample.checkout_shop 1 Sample.beat 7
              checkout_shop_keyed eq_refl eq_refl eq_refl eq_refl)
    as (_ & _ & H).
  destruct (H ltac:(discriminate)) as (H1 & _ & H2 & H3).
  split; [exact H1|]. split; [exact H2 | exact H3].
Defined.

(** ** Revenue aggregation *)

Lemma no_completed_transactions (w : World) :
  Forall (fun t => t_status t <> completed) (transaction_table w) ->
  completed_transactions w = [].
Proof.
  unfold completed_transactions.
  induction 1 as [|t rows Ht _ IH]; [reflexivity|].
  by rewrite filter_cons_False.
Qed.

(** C10.  Over a ledger without a completed transaction, the total
    revenue, the number of beats sold, the average sale value, today's
    revenue and today's number of sales are all 0. *)
Theorem C10_empty_aggregates_are_zero (now1 now2 : Z) (w : World) :
  Forall (fun t => t_status t <> completed) (transaction_table w) ->
  Transaction_get_total_revenue w = 0 /\
  Transaction_get_beats_sold_count w = 0 /\
  get_revenue_statistics now1 now2 w = mkStats 0 0 (0 # 1)%Q 0 0.
Proof.
  intros Hnone. apply no_completed_transactions in Hnone.
  unfold Transaction_get_total_revenue, Transaction_get_beats_sold_count,
    get_revenue_statistics.
  rewrite Hnone. split; [reflexivity|]. split; reflexivity.
Qed.

Lemma C10_witness :
  Forall (fun t => t_status t <> completed) (transaction_table Sample.unpaid_shop) /\
  get_revenue_statistics 86400 86401 Sample.unpaid_shop = mkStats 0 0 (0 # 1)%Q 0 0.
Proof.
  assert (H : Forall (fun t => t_status t <> completed)
                     (transaction_table Sample.unpaid_shop))
    by (repeat constructor; discriminate).
  split; [exact H|].
  exact (proj2 (proj2 (C10_empty_aggregates_are_zero 86400 86401 Sample.unpaid_shop H))).
Defined.

(** * Further properties *)

(** ** Availability *)

Lemma release_reservation_cases now (self : Beat) (w : World) :
  (reservation_expired now self /\
   run (Beat_release_reservation now self) w
     = (Ok (released self),
        set_beat_table (<[pk self := from_db (released self)]> (beat_table w)) w)) \/
  (~ reservation_expired now self /\
   run (Beat_release_reservation now self) w = (Ok self, w)).
Proof.
  unfold reservation_expired, run, Beat_release_reservation.
  destruct (status self) eqn:Hs;
    try (right; split; [intros [? _]; discriminate | reflexivity]).
  destruct (reserved_until self) as [u|] eqn:Hu.
  - destruct (Z.ltb_spec u now).
    + left. split; [eauto | reflexivity].
    + right. split; [|reflexivity]. intros (_ & u' & [= <-] & Hlt). lia.
  - right. split; [|reflexivity]. intros (_ & u' & [=] & _).
Qed.

(** X1.  [is_available] answers [True] exactly when the beat is
    'available' or holds a reservation whose deadline has passed; a
    reserved beat without a deadline is never released.  When the answer
    is [False], neither the instance nor the database has changed; when it
    is [True], the instance is 'available'. *)
Theorem is_available_answer now (self : Beat) (w : World) :
  exists self' answer w',
    run (Beat_is_available now self) w = (Ok (self', answer), w') /\
    (answer = true <-> status self = available \/ reservation_expired now self) /\
    (answer = true -> status self' = available) /\
    (answer = false -> self' = self /\ w' = w) /\
    (status self = reserved -> reserved_until self = None -> answer = false).
Proof.
  unfold Beat_is_available.
  destruct (release_reservation_cases now self w) as [[Hexp Hrun] | [Hexp Hrun]].
  - eexists _, _, _. split; [step_with ltac:(exact Hrun); apply run_ret|].
    cbn. split; [tauto|]. split; [done|]. split; [done|].
    intros _ Hnone. destruct Hexp as (_ & u & Hu & _). congruence.
  - eexists _, _, _. split; [step_with ltac:(exact Hrun); apply run_ret|].
    split.
    { rewrite bool_decide_eq_true. tauto. }
    split; [by rewrite bool_decide_eq_true|].
    split; [done|].
    intros Hs _. apply bool_decide_eq_false. congruence.
Qed.

(** ** The download quota *)

Lemma mark_times_run k (self : Beat) (w : World) :
  exists self' w',
    run (mark_times k self) w = (Ok self', w') /\
    download_count self' = download_count self + Z.of_nat k /\
    max_downloads self' = max_downloads self /\
    pk self' = pk self /\
    status self' = (if bool_decide (0 < Z.of_nat k
                                    /\ max_downloads self <= download_count self + Z.of_nat k)
                    then downloaded else status self) /\
    (k <> O -> beat_table w' !! pk self = Some (from_db self')).
Proof.
  revert self w. induction k as [|k IH]; intros self w.
  - exists self, w. split; [reflexivity|]. cbn [Z.of_nat].
    rewrite Z.add_0_r. do 3 (split; [reflexivity|]).
    split; [|done]. rewrite bool_decide_eq_false_2 by lia. reflexivity.
  - destruct (IH (marked self)
                 (set_beat_table (<[pk self := from_db (marked self)]> (beat_table w)) w))
      as (self' & w' & Hrun & Hc & Hm & Hpk & Hs & Hrow).
    exists self', w'. split.
    { cbn [mark_times]. step_with ltac:(apply Beat_mark_as_downloaded_run). exact Hrun. }
    rewrite download_count_marked in Hc, Hs.
    rewrite pk_marked in Hpk, Hrow.
    assert (Hmax : max_downloads (marked self) = max_downloads self)
      by (unfold marked; cbn; by destruct (Z.leb _ _)).
    rewrite Hmax in Hm, Hs.
    split; [lia|]. split; [exact Hm|]. split; [exact Hpk|].
    split.
    + rewrite Hs. clear Hs.
      assert (Hfirst : status (marked self)
                       = if bool_decide (max_downloads self <= download_count self + 1)
                         then downloaded else status self).
      { unfold marked. cbn.
        destruct (Z.leb_spec (max_downloads self) (download_count self + 1)).
        - by rewrite bool_decide_eq_true_2.
        - by rewrite bool_decide_eq_false_2 by lia. }
      rewrite Hfirst.
      repeat case_bool_decide; try reflexivity; lia.
    + intros _. destruct k as [|k].
      * unfold run, mark_times, ret in Hrun. injection Hrun as <- <-.
        cbn [beat_table set_beat_table]. apply lookup_insert_eq.
      * by apply Hrow.
Qed.

(** X2.  A beat that is 'available' or 'sold' and is marked as downloaded
    [k] times in a row ends with [download_count] raised by [k], and
    [is_downloadable] then holds exactly when that count is still below
    [max_downloads]: the quota closes at the mark that reaches it and
    stays closed. *)
Theorem is_downloadable_after_marks k (self : Beat) (w : World) :
  status self = available \/ status self = sold ->
  exists self' w',
    run (mark_times k self) w = (Ok self', w') /\
    download_count self' = download_count self + Z.of_nat k /\
    Beat_is_downloadable self'
      = bool_decide (download_count self + Z.of_nat k < max_downloads self) /\
    (Beat_is_downloadable self' = false -> k <> O -> status self' = downloaded).
Proof.
  intros Hst.
  destruct (mark_times_run k self w) as (self' & w' & Hrun & Hc & Hm & _ & Hs & _).
  exists self', w'. split; [exact Hrun|]. split; [exact Hc|].
  assert (Hltb : forall a b : Z, Z.ltb a b = bool_decide (a < b)).
  { intros a b. destruct (Z.ltb_spec a b).
    - by rewrite bool_decide_eq_true_2.
    - by rewrite bool_decide_eq_false_2 by lia. }
  unfold Beat_is_downloadable. rewrite Hc, Hm, Hltb.
  destruct (decide (0 < Z.of_nat k
                    /\ max_downloads self <= download_count self + Z.of_nat k))
    as [Hfull | Hopen].
  - rewrite bool_decide_eq_true_2 in Hs by exact Hfull. rewrite Hs.
    change (bool_decide (downloaded = available)) with false.
    change (bool_decide (downloaded = sold)) with false. cbn [orb andb].
    split; [|done]. by rewrite bool_decide_eq_false_2 by lia.
  - rewrite bool_decide_eq_false_2 in Hs by exact Hopen. rewrite Hs.
    assert (Hor : bool_decide (status self = available)
                  || bool_decide (status self = sold) = true)
      by (by destruct Hst as [-> | ->]).
    rewrite Hor. cbn [andb]. split; [reflexivity|].
    intros Hno Hk. exfalso. apply Hopen. split; [lia|].
    apply bool_decide_eq_false in Hno. lia.
Qed.

Lemma is_downloadable_after_marks_witness :
  exists self' w',
    run (mark_times 3 Scenario.trio) Sample.shop = (Ok self', w') /\
    download_count self' = 3 /\
    Beat_is_downloadable self' = false /\
    status self' = downloaded.
Proof.
  destruct (is_downloadable_after_marks 3 Scenario.trio Sample.shop (or_intror eq_refl))
    as (self' & w' & Hrun & Hc & Hd & Hs).
  exists self', w'. split; [exact Hrun|]. split; [exact Hc|].
  split; [exact Hd|]. apply Hs; [exact Hd | discriminate].
Defined.

(** ** What a transaction save does to the inventory and to the ledger *)

(** [Transaction.save] up to its [super().save()]: the instance and the
    world that [super().save()] receives. *)
Lemma Transaction_save_decompose now (self : Transaction) b (w : World) :
  result (related_beat (t_beat self) (t_beat_id self)) w = Ok b ->
  exists self2 w2,
    run (Transaction_save now self) w = run (Model_save_Transaction self2) w2 /\
    t_id self2 = t_id self /\
    t_buyer self2 = t_buyer self /\
    t_beat_id self2 = t_beat_id self /\
    amount self2 = amount self /\
    t_status self2 = t_status self /\
    transaction_table w2 = transaction_table w /\
    downloadhistory_table w2 = downloadhistory_table w /\
    (t_status self = completed -> completed_at self = None ->
     completed_at self2 = Some now /\
     beat_table w2 = <[pk b := from_db (purchased b)]> (beat_table w)) /\
    (t_status self = failed \/ t_status self = cancelled ->
     completed_at self2 = completed_at self /\
     (reservation_expired now b ->
      beat_table w2 = <[pk b := from_db (released b)]> (beat_table w)) /\
     (~ reservation_expired now b -> beat_table w2 = beat_table w)) /\
    (~ (t_status self = completed /\ completed_at self = None) ->
     t_status self <> failed -> t_status self <> cancelled ->
     self2 = self /\ w2 = w).
Proof.
  intros Hb. apply related_beat_run in Hb.
  assert (Hrel : forall (P : Prop),
            t_status self = failed \/ t_status self = cancelled ->
            exists self2 w2,
              run (Transaction_save now self) w = run (Model_save_Transaction self2) w2 /\
              self2 = set_t_beat (t_beat self2) self /\
              transaction_table w2 = transaction_table w /\
              downloadhistory_table w2 = downloadhistory_table w /\
              (reservation_expired now b ->
               beat_table w2 = <[pk b := from_db (released b)]> (beat_table w)) /\
              (~ reservation_expired now b -> beat_table w2 = beat_table w)).
  { intros _ Hst.
    destruct (release_reservation_cases now b w) as [[Hexp Hrun] | [Hexp Hrun]].
    - eexists (set_t_beat (Some (released b)) self), _. split.
      { unfold Transaction_save.
        destruct Hst as [-> | ->];
          (erewrite run_bind;
           [reflexivity
           | step_with ltac:(exact Hb); step_with ltac:(exact Hrun); apply run_ret]). }
      split; [by destruct self|]. split; [reflexivity|]. split; [reflexivity|].
      split; [reflexivity | tauto].
    - eexists (set_t_beat (Some b) self), _. split.
      { unfold Transaction_save.
        destruct Hst as [-> | ->];
          (erewrite run_bind;
           [reflexivity
           | step_with ltac:(exact Hb); step_with ltac:(exact Hrun); apply run_ret]). }
      split; [by destruct self|]. split; [reflexivity|]. split; [reflexivity|].
      split; [tauto | reflexivity]. }
  destruct (t_status self) eqn:Hst.
  - (* pending *)
    exists self, w. split.
    { unfold Transaction_save. rewrite Hst. erewrite run_bind; [reflexivity | apply run_ret]. }
    do 7 (split; [done|]). split; [discriminate|].
    split; [intros [|]; discriminate | done].
  - (* completed *)
    destruct (completed_at self) as [c|] eqn:Hc.
    + exists self, w. split.
      { unfold Transaction_save. rewrite Hst, Hc.
        erewrite run_bind; [reflexivity | apply run_ret]. }
      do 7 (split; [done|]). split; [discriminate|].
      split; [intros [|]; discriminate | done].
    + eexists (set_t_beat (Some (purchased b)) (set_completed_at (Some now) self)), _.
      split.
      { unfold Transaction_save. rewrite Hst, Hc.
        erewrite run_bind; [reflexivity|].
        step_with ltac:(exact Hb).
        step_with ltac:(unfold Beat_complete_purchase;
                        step_with ltac:(apply run_modify); apply run_ret).
        apply run_ret. }
      do 4 (split; [reflexivity|]). split; [cbn; congruence|].
      split; [reflexivity|]. split; [reflexivity|].
      split; [done|]. split; [intros [|]; discriminate|].
      intros Hnot. destruct Hnot. done.
  - (* failed *)
    destruct (Hrel True (or_introl eq_refl))
      as (self2 & w2 & Hrun & Hself & Htt & Hdh & Hexp & Hnexp).
    exists self2, w2. split; [exact Hrun|]. rewrite Hself. cbn.
    do 4 (split; [reflexivity|]). split; [congruence|].
    split; [exact Htt|]. split; [exact Hdh|].
    split; [discriminate|]. split; [|done].
    intros _. done.
  - (* cancelled *)
    destruct (Hrel True (or_intror eq_refl))
      as (self2 & w2 & Hrun & Hself & Htt & Hdh & Hexp & Hnexp).
    exists self2, w2. split; [exact Hrun|]. rewrite Hself. cbn.
    do 4 (split; [reflexivity|]). split; [congruence|].
    split; [exact Htt|]. split; [exact Hdh|].
    split; [discriminate|]. split; [|done].
    intros _. done.
Qed.

(** X3.  [Transaction.save] writes to the beat table in two cases only:
    the first save of a completed transaction stores the referenced beat
    as sold, and the save of a failed or cancelled transaction stores it
    as available when its reservation has expired.  Every other save
    (pending, completed again, failed or cancelled with the reservation
    not expired) leaves every beat as it is; no save touches the download
    history. *)
Theorem Transaction_save_inventory_effect now (self : Transaction) b (w : World) :
  result (related_beat (t_beat self) (t_beat_id self)) w = Ok b ->
  exists self' w',
    run (Transaction_save now self) w = (Ok self', w') /\
    downloadhistory_table w' = downloadhistory_table w /\
    (t_status self = completed -> completed_at self = None ->
     beat_table w' = <[pk b := from_db (purchased b)]> (beat_table w)) /\
    (t_status self = failed \/ t_status self = cancelled ->
     reservation_expired now b ->
     beat_table w' = <[pk b := from_db (released b)]> (beat_table w)) /\
    (~ (t_status self = completed /\ completed_at self = None) ->
     ~ ((t_status self = failed \/ t_status self = cancelled)
        /\ reservation_expired now b) ->
     beat_table w' = beat_table w).
Proof.
  intros Hb.
  destruct (Transaction_save_decompose now self b w Hb)
    as (self2 & w2 & Hrun & _ & _ & _ & _ & _ & _ & Hdh & Hfirst & Hrel & Hother).
  destruct (Model_save_Transaction_run self2 w2) as (self' & w' & Hsave & Hbt & Hdh' & _).
  exists self', w'. split; [by rewrite Hrun|].
  split; [by rewrite Hdh', Hdh|]. rewrite Hbt.
  split; [intros Hs Hc; by apply Hfirst|].
  split; [intros Hs Hexp; by apply Hrel|].
  intros Hnf Hnr.
  destruct (decide (t_status self = failed \/ t_status self = cancelled)) as [Hs|Hs].
  - apply Hrel; [exact Hs|]. tauto.
  - destruct Hother as [_ ->]; [exact Hnf | tauto | tauto | reflexivity].
Qed.

Lemma Transaction_save_inventory_effect_witness :
  beat_table (after (Transaction_save 200 (Scenario.cancelled_tx (held 0 Sample.beat)))
                    (w_held 0 Sample.beat Sample.shop))
    = beat_table (w_held 0 Sample.beat Sample.shop) /\
  beat_table (after (Transaction_save 301 (Scenario.cancelled_tx (held 0 Sample.beat)))
                    (w_held 0 Sample.beat Sample.shop))
    = <[1 := from_db (released (held 0 Sample.beat))]>
        (beat_table (w_held 0 Sample.beat Sample.shop)).
Proof.
  split.
  - destruct (Transaction_save_inventory_effect 200
                (Scenario.cancelled_tx (held 0 Sample.beat)) (held 0 Sample.beat)
                (w_held 0 Sample.beat Sample.shop) eq_refl)
      as (self' & w' & Hrun & _ & _ & _ & Hkeep).
    unfold after. unfold run in Hrun. rewrite Hrun. apply Hkeep.
    + intros [? _]. discriminate.
    + intros (_ & _ & u & [= <-] & Hu). vm_compute in Hu. discriminate.
  - destruct (Transaction_save_inventory_effect 301
                (Scenario.cancelled_tx (held 0 Sample.beat)) (held 0 Sample.beat)
                (w_held 0 Sample.beat Sample.shop) eq_refl)
      as (self' & w' & Hrun & _ & _ & Hrel & _).
    unfold after. unfold run in Hrun. rewrite Hrun. apply Hrel.
    + by right.
    + split; [reflexivity|]. exists 300. split; [reflexivity | reflexivity].
Defined.

(** X4.  Saving a transaction that has no primary key yet, whatever its
    status, appends exactly one row to the ledger: the rows that were
    there stay in place and in order, and the new row carries the
    instance's buyer, beat, amount and status. *)
Theorem Transaction_save_appends now (self : Transaction) b (w : World) :
  result (related_beat (t_beat self) (t_beat_id self)) w = Ok b ->
  t_id self = None ->
  exists self' w' row,
    run (Transaction_save now self) w = (Ok self', w') /\
    transaction_table w' = transaction_table w ++ [row] /\
    row = set_t_beat None self' /\
    is_Some (t_id row) /\
    t_buyer row = t_buyer self /\
    t_beat_id row = t_beat_id self /\
    amount row = amount self /\
    t_status row = t_status self.
Proof.
  intros Hb Hid.
  destruct (Transaction_save_decompose now self b w Hb)
    as (self2 & w2 & Hrun & Hid2 & Hbu & Hbe & Ham & Hst & Htt & _).
  rewrite Hid in Hid2.
  exists (set_t_id (Some (fresh_pk (map t_id (transaction_table w2)))) self2).
  eexists _, _. split.
  { rewrite Hrun. unfold Model_save_Transaction. rewrite Hid2.
    step_gets. step_modify. apply run_ret. }
  cbn [transaction_table set_transaction_table]. rewrite Htt.
  split; [reflexivity|]. split; [reflexivity|].
  cbn. split; [eauto|]. done.
Qed.

Lemma Transaction_save_appends_witness :
  exists self' w' row,
    run (Transaction_save 200 (Scenario.cancelled_tx Sample.beat)) Sample.paid_shop
      = (Ok self', w') /\
    transaction_table w' = transaction_table Sample.paid_shop ++ [row] /\
    t_status row = cancelled.
Proof.
  destruct (Transaction_save_appends 200 (Scenario.cancelled_tx Sample.beat) Sample.beat
              Sample.paid_shop eq_refl eq_refl)
    as (self' & w' & row & Hrun & Htt & _ & _ & _ & _ & _ & Hst).
  exists self', w', row. split; [exact Hrun|]. split; [exact Htt | exact Hst].
Defined.

(** ** The download endpoint, case by case *)

Lemma download_beat_delivers now request beat_id (w : World) row buyer :
  beat_table w !! beat_id = Some row ->
  user_buyer_profile request = Some buyer ->
  has_completed_transaction buyer row w = true ->
  os_path_exists (audio_file row) w = true ->
  run (download_beat LenientInit now request beat_id) w
    = (Ok (FileResponse (audio_file row)),
       mkWorld
         (<[pk row := from_db (marked (counted (from_db row)))]>
            (<[pk row := from_db (counted (from_db row))]> (beat_table w)))
         (transaction_table w)
         (downloadhistory_table w
          ++ [mkDownloadHistory (Some (fresh_pk (map dh_id (downloadhistory_table w))))
                                (pk row) None buyer now None])
         (media w)
         (session_current_beat_id w)).
Proof.
  intros Hrow Hbuyer Hp Hf. unfold download_beat.
  step_with ltac:(apply get_object_or_404_run; exact Hrow).
  step_with ltac:(apply buyer_profile_run; exact Hbuyer).
  step_gets.
  change (has_completed_transaction buyer (from_db row) w)
    with (has_completed_transaction buyer row w).
  rewrite Hp. cbn [negb]. step_gets.
  change (os_path_exists (audio_file (from_db row)) w)
    with (os_path_exists (audio_file row) w).
  rewrite Hf.
  unfold DownloadHistory_objects_create.
  erewrite run_bind; cycle 1.
  { step_with ltac:(apply run_ret). step_gets. step_modify.
    step_with ltac:(apply update_beat_download_count_run; reflexivity).
    step_with ltac:(apply run_ret). apply run_ret. }
  cbv beta.
  step_with ltac:(apply run_ret).
  step_with ltac:(apply Beat_mark_as_downloaded_run).
  rewrite pk_counted. apply run_ret.
Qed.

Lemma download_beat_cases init now request beat_id (w : World) :
  (beat_table w !! beat_id = None /\
   run (download_beat init now request beat_id) w = (Raise Http404, w)) \/
  (exists row,
     beat_table w !! beat_id = Some row /\
     user_buyer_profile request = None /\
     run (download_beat init now request beat_id) w = (Raise AttributeError, w)) \/
  (exists row buyer,
     beat_table w !! beat_id = Some row /\
     user_buyer_profile request = Some buyer /\
     has_completed_transaction buyer row w = false /\
     run (download_beat init now request beat_id) w
       = (Ok (HttpResponseForbidden "You have not purchased this beat."), w)) \/
  (exists row buyer,
     beat_table w !! beat_id = Some row /\
     user_buyer_profile request = Some buyer /\
     has_completed_transaction buyer row w = true /\
     os_path_exists (audio_file row) w = false /\
     run (download_beat init now request beat_id) w
       = (Ok (HttpResponseForbidden "File does not exist."), w)) \/
  (exists row buyer,
     beat_table w !! beat_id = Some row /\
     user_buyer_profile request = Some buyer /\
     has_completed_transaction buyer row w = true /\
     os_path_exists (audio_file row) w = true /\
     init = StrictInit /\
     run (download_beat init now request beat_id) w = (Raise TypeError, w)) \/
  (exists row buyer w',
     beat_table w !! beat_id = Some row /\
     user_buyer_profile request = Some buyer /\
     has_completed_transaction buyer row w = true /\
     os_path_exists (audio_file row) w = true /\
     init = LenientInit /\
     run (download_beat init now request beat_id) w
       = (Ok (FileResponse (audio_file row)), w') /\
     transaction_table w' = transaction_table w /\
     media w' = media w /\
     session_current_beat_id w' = session_current_beat_id w /\
     beat_table w' = <[pk row := from_db (marked (counted (from_db row)))]>
                       (<[pk row := from_db (counted (from_db row))]> (beat_table w)) /\
     downloadhistory_table w'
       = downloadhistory_table w
         ++ [mkDownloadHistory (Some (fresh_pk (map dh_id (downloadhistory_table w))))
                               (pk row) None buyer now None]).
Proof.
  destruct (beat_table w !! beat_id) as [row|] eqn:Hrow.
  2: { left. split; [reflexivity|]. by apply download_beat_not_found. }
  right.
  destruct (user_buyer_profile request) as [buyer|] eqn:Hbuyer.
  2: { left. exists row. split; [reflexivity|]. split; [reflexivity|].
       by eapply download_beat_anonymous. }
  right.
  destruct (has_completed_transaction buyer row w) eqn:Hp.
  2: { left. exists row, buyer. do 3 (split; [done|]).
       by eapply download_beat_not_purchased. }
  right.
  destruct (os_path_exists (audio_file row) w) eqn:Hf.
  2: { left. exists row, buyer. do 4 (split; [done|]).
       by eapply download_beat_file_missing. }
  right. destruct init.
  - left. exists row, buyer. do 5 (split; [done|]).
    by eapply download_beat_strict.
  - right. eexists row, buyer, _. do 5 (split; [done|]).
    split; [by apply download_beat_delivers|]. done.
Qed.

(** X5.  The download endpoint writes only when it serves the file: in
    every other outcome, refusal or exception, the world is exactly as
    before.  It raises [Http404] exactly when no beat has the requested
    id, and a refusal is one of the two messages of the view. *)
Theorem download_beat_writes_only_when_serving init now request beat_id (w : World) :
  (after (download_beat init now request beat_id) w = w \/
   exists path, result (download_beat init now request beat_id) w = Ok (FileResponse path)) /\
  (result (download_beat init now request beat_id) w = Raise Http404
   <-> beat_table w !! beat_id = None) /\
  (forall content,
     result (download_beat init now request beat_id) w = Ok (HttpResponseForbidden content) ->
     content = "You have not purchased this beat." \/ content = "File does not exist.").
Proof.
  unfold after, result.
  destruct (download_beat_cases init now request beat_id w)
    as [(Hrow & Hrun) | [(row & Hrow & _ & Hrun) | [(row & buyer & Hrow & _ & _ & Hrun)
       | [(row & buyer & Hrow & _ & _ & _ & Hrun) | [(row & buyer & Hrow & _ & _ & _ & _ & Hrun)
       | (row & buyer & w' & Hrow & _ & _ & _ & _ & Hrun & _)]]]]];
    unfold run in Hrun; rewrite Hrun; cbn [fst snd]; rewrite Hrow.
  - split; [by left|]. split; [done|]. intros c [=].
  - split; [by left|]. split; [split; discriminate|]. intros c [=].
  - split; [by left|]. split; [split; discriminate|]. intros c [= <-]. by left.
  - split; [by left|]. split; [split; discriminate|]. intros c [= <-]. by right.
  - split; [by left|]. split; [split; discriminate|]. intros c [=].
  - split; [right; eauto|]. split; [split; discriminate|]. intros c [=].
Qed.

Lemma has_completed_transaction_iff buyer (b : Beat) (w : World) :
  has_completed_transaction buyer b w = true <->
  exists t, t ∈ transaction_table w /\
            t_buyer t = buyer /\ t_beat_id t = pk b /\ t_status t = completed.
Proof.
  unfold has_completed_transaction. rewrite existsb_exists. split.
  - intros (t & Hin & Ht). exists t. apply list_elem_of_In in Hin.
    apply andb_prop in Ht as [Ht Hs]. apply andb_prop in Ht as [Hb Hk].
    apply bool_decide_eq_true in Hs, Hb, Hk. done.
  - intros (t & Hin & Hb & Hk & Hs). exists t. split; [by apply list_elem_of_In|].
    rewrite !andb_true_iff, !bool_decide_eq_true. done.
Qed.

(** X6.  For a logged-in buyer and an existing beat, the endpoint answers
    "You have not purchased this beat." exactly when the ledger holds no
    completed transaction of this buyer for this beat: a pending, failed
    or cancelled transaction, another buyer's purchase, or this buyer's
    purchase of another beat does not open it. *)
Theorem download_beat_refuses_without_own_purchase
    init now request beat_id (w : World) row buyer :
  beat_table w !! beat_id = Some row ->
  pk row = beat_id ->
  user_buyer_profile request = Some buyer ->
  (run (download_beat init now request beat_id) w
     = (Ok (HttpResponseForbidden "You have not purchased this beat."), w)
   <->
   ~ exists t, t ∈ transaction_table w /\
               t_buyer t = buyer /\ t_beat_id t = beat_id /\ t_status t = completed).
Proof.
  intros Hrow Hpk Hbuyer. subst beat_id. rewrite <- has_completed_transaction_iff.
  destruct (download_beat_cases init now request (pk row) w)
    as [(Hrow' & Hrun) | [(row' & Hrow' & Hb' & Hrun) | [(row' & buyer' & Hrow' & Hb' & Hp & Hrun)
       | [(row' & buyer' & Hrow' & Hb' & Hp & _ & Hrun)
       | [(row' & buyer' & Hrow' & Hb' & Hp & _ & _ & Hrun)
       | (row' & buyer' & w' & Hrow' & Hb' & Hp & _ & _ & Hrun & _)]]]]];
    rewrite ?Hrow, ?Hbuyer in *; try discriminate;
    injection Hrow' as <-; injection Hb' as <-; rewrite Hrun, Hp.
  - split; [discriminate | done].
  - split; [discriminate | done].
  - split; [discriminate | done].
  - split; [discriminate | done].
Qed.

Lemma download_beat_refuses_without_own_purchase_witness :
  run (download_beat StrictInit 20 Scenario.other_request 1) Sample.paid_shop
    = (Ok (HttpResponseForbidden "You have not purchased this beat."), Sample.paid_shop).
Proof.
  apply (download_beat_refuses_without_own_purchase StrictInit 20 Scenario.other_request 1
           Sample.paid_shop (purchased Sample.beat) 8 eq_refl eq_refl eq_refl).
  intros (t & Hin & Hb & _).
  change (transaction_table Sample.paid_shop)
    with [mkTransaction (Some 1) 7 1 None 2500 completed "" (Some 10)] in Hin.
  apply list_elem_of_singleton in Hin. subst t. discriminate Hb.
Defined.

Lemma download_beat_footprint init now request beat_id (w : World) :
  keyed_by_pk w ->
  transaction_table (after (download_beat init now request beat_id) w)
    = transaction_table w /\
  media (after (download_beat init now request beat_id) w) = media w /\
  session_current_beat_id (after (download_beat init now request beat_id) w)
    = session_current_beat_id w /\
  (forall k, k <> beat_id ->
     beat_table (after (download_beat init now request beat_id) w) !! k
       = beat_table w !! k /\
     history_of k (after (download_beat init now request beat_id) w) = history_of k w) /\
  (exists rows,
     downloadhistory_table (after (download_beat init now request beat_id) w)
       = downloadhistory_table w ++ rows /\
     (length rows <= 1)%nat /\
     Forall (fun h => dh_beat_id h = beat_id) rows) /\
  keyed_by_pk (after (download_beat init now request beat_id) w).
Proof.
  intros Hkeyed.
  split; [|split; [|split; [|split; [intros k Hk; by apply download_beat_frame|]]]].
  all: unfold after;
    destruct (download_beat_cases init now request beat_id w)
      as [(Hrow & Hrun) | [(row & Hrow & _ & Hrun) | [(row & buyer & Hrow & _ & _ & Hrun)
         | [(row & buyer & Hrow & _ & _ & _ & Hrun)
         | [(row & buyer & Hrow & _ & _ & _ & _ & Hrun)
         | (row & buyer & w' & Hrow & _ & _ & _ & _ & Hrun & Htt & Hm & Hse & Hbt & Hdh)]]]]];
    unfold run in Hrun; rewrite Hrun; cbn [snd]; try done.
  1-5: split; [exists []; rewrite app_nil_r; split; [done|]; split; [cbn; lia | constructor]
             | exact Hkeyed].
  pose proof (Hkeyed _ _ Hrow) as Hpk.
  split.
  - eexists. split; [exact Hdh|]. split; [cbn; lia|]. by repeat constructor.
  - intros k b. rewrite Hbt.
    intros [[<- <-] | [_ [[<- <-] | [_ Hb]]%lookup_insert_Some]]%lookup_insert_Some.
    + change (pk (from_db (marked (counted (from_db row)))))
        with (pk (marked (counted (from_db row)))).
      by rewrite pk_marked, pk_counted.
    + change (pk (from_db (counted (from_db row)))) with (pk (counted (from_db row))).
      by rewrite pk_counted.
    + by apply Hkeyed.
Qed.

(** X7.  Whatever it answers, the download endpoint never writes the
    ledger, the media or the session; it leaves every other beat and the
    download history of every other beat untouched; it adds at most one
    history row, and that row is for the requested beat; and the beat
    table stays keyed by primary key. *)
Theorem download_beat_touches_requested_beat_only
    init now request beat_id (w : World) :
  keyed_by_pk w ->
  transaction_table (after (download_beat init now request beat_id) w)
    = transaction_table w /\
  media (after (download_beat init now request beat_id) w) = media w /\
  session_current_beat_id (after (download_beat init now request beat_id) w)
    = session_current_beat_id w /\
  (forall k, k <> beat_id ->
     beat_table (after (download_beat init now request beat_id) w) !! k
       = beat_table w !! k /\
     history_of k (after (download_beat init now request beat_id) w) = history_of k w) /\
  (exists rows,
     downloadhistory_table (after (download_beat init now request beat_id) w)
       = downloadhistory_table w ++ rows /\
     (length rows <= 1)%nat /\
     Forall (fun h => dh_beat_id h = beat_id) rows) /\
  keyed_by_pk (after (download_beat init now request beat_id) w).
Proof. apply download_beat_footprint. Qed.

Lemma download_beat_touches_requested_beat_only_witness :
  transaction_table (after (download_beat LenientInit 20 Sample.request 1) Sample.paid_shop)
    = transaction_table Sample.paid_shop /\
  keyed_by_pk (after (download_beat LenientInit 20 Sample.request 1) Sample.paid_shop).
Proof.
  assert (Hkeyed : keyed_by_pk Sample.paid_shop).
  { intros k b. rewrite paid_shop_beats. by intros [<- <-]%lookup_singleton_Some. }
  destruct (download_beat_touches_requested_beat_only LenientInit 20 Sample.request 1
              Sample.paid_shop Hkeyed) as (H1 & _ & _ & _ & _ & H2).
  split; [exact H1 | exact H2].
Defined.

(** ** The payment callback, case by case *)

Lemma download_beat_ledger init now request beat_id (w : World) :
  transaction_table (after (download_beat init now request beat_id) w)
    = transaction_table w.
Proof.
  unfold after.
  destruct (download_beat_cases init now request beat_id w)
    as [(_ & Hrun) | [(row & _ & _ & Hrun) | [(row & buyer & _ & _ & _ & Hrun)
       | [(row & buyer & _ & _ & _ & _ & Hrun)
       | [(row & buyer & _ & _ & _ & _ & _ & Hrun)
       | (row & buyer & w' & _ & _ & _ & _ & _ & Hrun & Htt & _)]]]]];
    unfold run in Hrun; by rewrite Hrun.
Qed.

Lemma deliver_never_redirects init now request beat_id (w : World) to message :
  result (deliver init now request beat_id) w <> Ok (Redirected to message).
Proof.
  unfold result, deliver, bind.
  by destruct (download_beat init now request beat_id w) as [[r|e] w'].
Qed.

Lemma payment_response_invalid_session init now now' request (w : World) :
  session_current_beat_id w = None \/ session_current_beat_id w = Some 0 ->
  run (payment_response init now now' request) w
    = (Ok (Redirected main_index "Invalid payment session. Please try again."), w).
Proof.
  intros Hs. unfold payment_response. step_gets. by destruct Hs as [-> | ->].
Qed.

Lemma payment_response_missing_beat init now now' request (w : World) bid :
  session_current_beat_id w = Some bid ->
  bid <> 0 ->
  beat_table w !! bid = None ->
  run (payment_response init now now' request) w = (Raise Http404, w).
Proof.
  intros Hs Hbid Hrow. unfold payment_response. step_gets. rewrite Hs.
  destruct bid as [|p|p]; [congruence | |]; cbv beta iota;
    apply run_bind_raise; unfold get_object_or_404; step_gets; by rewrite Hrow.
Qed.

Lemma payment_response_anonymous init now now' request (w : World) bid row :
  session_current_beat_id w = Some bid ->
  bid <> 0 ->
  beat_table w !! bid = Some row ->
  GET_status request = Some "successful" ->
  user_buyer_profile request = None ->
  run (payment_response init now now' request) w
    = (Raise AttributeError, set_session_current_beat_id None w).
Proof.
  intros Hs Hbid Hrow Hst Hanon. unfold payment_response. step_gets. rewrite Hs.
  destruct bid as [|p|p]; [congruence | |]; cbv beta iota;
    (step_with ltac:(apply get_object_or_404_run; exact Hrow));
    step_modify; rewrite Hst; rewrite bool_decide_eq_true_2 by reflexivity;
    apply run_bind_raise; unfold buyer_profile; by rewrite Hanon.
Qed.

(** X8.  A callback without a usable correlation changes nothing.  When
    the session holds no beat id, or holds 0, the answer is the redirect
    "Invalid payment session", whatever the status; when it names a beat
    that does not exist, [Http404] is raised before the session entry is
    removed. *)
Theorem payment_response_without_correlation init now now' request (w : World) :
  (session_current_beat_id w = None \/ session_current_beat_id w = Some 0 ->
   run (payment_response init now now' request) w
     = (Ok (Redirected main_index "Invalid payment session. Please try again."), w)) /\
  (forall bid,
     session_current_beat_id w = Some bid ->
     bid <> 0 ->
     beat_table w !! bid = None ->
     run (payment_response init now now' request) w = (Raise Http404, w) /\
     session_current_beat_id (after (payment_response init now now' request) w)
       = Some bid).
Proof.
  split; [apply payment_response_invalid_session|].
  intros bid Hs Hbid Hrow.
  pose proof (payment_response_missing_beat init now now' request w bid Hs Hbid Hrow) as Hrun.
  split; [exact Hrun|]. unfold after. unfold run in Hrun. by rewrite Hrun.
Qed.

(** X9.  A callback that is answered with a redirect leaves no correlation
    behind: any callback that follows it, with any status and from any
    user, is answered "Invalid payment session" and changes nothing. *)
Theorem payment_response_redirect_consumes_correlation
    init now now' request (w w1 : World) to message :
  run (payment_response init now now' request) w = (Ok (Redirected to message), w1) ->
  forall init2 now2 now2' request2,
    run (payment_response init2 now2 now2' request2) w1
      = (Ok (Redirected main_index "Invalid payment session. Please try again."), w1).
Proof.
  intros Hrun init2 now2 now2' request2.
  apply payment_response_invalid_session.
  destruct (session_current_beat_id w) as [bid|] eqn:Hs.
  2: { rewrite payment_response_invalid_session in Hrun by auto.
       injection Hrun as _ _ <-. by left. }
  destruct (decide (bid = 0)) as [-> | Hbid].
  { rewrite payment_response_invalid_session in Hrun by auto.
    injection Hrun as _ _ <-. by right. }
  destruct (beat_table w !! bid) as [row|] eqn:Hrow.
  2: { by rewrite (payment_response_missing_beat _ _ _ _ _ bid) in Hrun. }
  destruct (decide (GET_status request = Some "successful")) as [Hst | Hst].
  - destruct (user_buyer_profile request) as [buyer|] eqn:Hbuyer.
    + destruct (payment_response_successful init now now' request w bid row
                  Hs Hbid Hrow buyer Hbuyer Hst) as (tx & w2 & _ & Hpr & _).
      rewrite Hpr in Hrun. exfalso.
      apply (deliver_never_redirects init now' request beat_id_global w2 to message).
      unfold result. unfold run in Hrun. by rewrite Hrun.
    + by rewrite (payment_response_anonymous _ _ _ _ _ bid row) in Hrun.
  - destruct (decide (GET_status request = Some "cancelled")) as [Hc | Hc].
    + rewrite (payment_response_cancelled init now now' request w bid row Hs Hbid Hrow Hc)
        in Hrun.
      injection Hrun as _ _ <-. by left.
    + rewrite (payment_response_failed init now now' request w bid row Hs Hbid Hrow Hst Hc)
        in Hrun.
      injection Hrun as _ _ <-. by left.
Qed.

Lemma payment_response_redirect_consumes_correlation_witness :
  run (payment_response StrictInit 30 31 (Sample.callback "successful"))
      (after (payment_response StrictInit 20 21 (Sample.callback "cancelled"))
             Sample.checkout_shop)
    = (Ok (Redirected main_index "Invalid payment session. Please try again."),
       after (payment_response StrictInit 20 21 (Sample.callback "cancelled"))
             Sample.checkout_shop).
Proof.
  apply (payment_response_redirect_consumes_correlation StrictInit 20 21
           (Sample.callback "cancelled") Sample.checkout_shop _
           (main_detail 1) "Payment was cancelled. Please try again.").
  reflexivity.
Defined.

Lemma payment_response_without_correlation_witness :
  run (payment_response StrictInit 20 21 (Sample.callback "successful")) Sample.shop
    = (Ok (Redirected main_index "Invalid payment session. Please try again."),
       Sample.shop) /\
  run (payment_response StrictInit 20 21 (Sample.callback "successful"))
      Scenario.stale_checkout
    = (Raise Http404, Scenario.stale_checkout).
Proof.
  split.
  - apply (proj1 (payment_response_without_correlation StrictInit 20 21
                    (Sample.callback "successful") Sample.shop)).
    by left.
  - refine (proj1 (proj2 (payment_response_without_correlation StrictInit 20 21
                            (Sample.callback "successful") Scenario.stale_checkout)
                         5 eq_refl _ eq_refl)).
    discriminate.
Defined.

(** ** What a successful callback leaves behind *)

Section SuccessfulCallback.

Variables (init : ModelInit) (now now' : Z) (request : HttpRequest) (w : World).
Variables (bid : Z) (row : Beat) (buyer : Z).
Hypothesis Hkeyed : keyed_by_pk w.
Hypothesis Hsession : session_current_beat_id w = Some bid.
Hypothesis Hbid : bid <> 0.
Hypothesis Hrow : beat_table w !! bid = Some row.
Hypothesis Hsuccessful : GET_status request = Some "successful".
Hypothesis Hbuyer : user_buyer_profile request = Some buyer.

(** The world after the callback: the ledger has the new completed row
    at its end, the paid beat is stored as sold, and the table is still
    keyed by primary key. *)
Lemma payment_response_successful_after :
  exists tx,
    transaction_table (after (payment_response init now now' request) w)
      = transaction_table w ++ [tx] /\
    tx = mkTransaction (t_id tx) buyer bid None (price row) completed "" (Some now) /\
    beat_table (after (payment_response init now now' request) w) !! bid
      = Some (from_db (purchased (from_db row))) /\
    keyed_by_pk (after (payment_response init now now' request) w).
Proof.
  pose proof (Hkeyed _ _ Hrow) as Hpk.
  destruct (payment_response_successful init now now' request w bid row
              Hsession Hbid Hrow buyer Hbuyer Hsuccessful)
    as (tx & w1 & _ & Hpr & Htx & _ & Htt & Hbt & _).
  assert (Hkeyed1 : keyed_by_pk w1).
  { intros k b. rewrite Hbt. intros [[<- <-] | [_ Hb]]%lookup_insert_Some.
    - reflexivity.
    - by apply Hkeyed. }
  assert (Hafter : after (payment_response init now now' request) w
                   = after (download_beat init now' request beat_id_global) w1).
  { rewrite <- after_deliver. unfold after. unfold run in Hpr. by rewrite Hpr. }
  rewrite Hafter.
  destruct (download_beat_footprint init now' request beat_id_global
              w1 Hkeyed1) as (Hledger & _ & _ & Hframe & _ & Hkeyed').
  exists (set_t_beat None tx).
  split; [by rewrite Hledger, Htt|].
  split; [rewrite Htx; cbn; by rewrite Hpk|].
  split; [|exact Hkeyed'].
  destruct (Hframe bid Hbid) as [-> _]. by rewrite Hbt, Hpk, lookup_insert_eq.
Qed.

End SuccessfulCallback.

Lemma or_0_Sum rows : or_0 (Sum rows) = total_amount rows.
Proof. by destruct rows. Qed.

Lemma total_amount_app rows rows' :
  total_amount (rows ++ rows') = total_amount rows + total_amount rows'.
Proof.
  induction rows as [|t rows IH]; [reflexivity|].
  cbn. unfold total_amount in IH. rewrite IH. unfold total_amount. lia.
Qed.

Lemma payment_response_redirect_world init now now' request (w w1 : World) to message :
  run (payment_response init now now' request) w = (Ok (Redirected to message), w1) ->
  w1 = w \/ w1 = set_session_current_beat_id None w.
Proof.
  intros Hrun.
  destruct (session_current_beat_id w) as [bid|] eqn:Hs.
  2: { rewrite payment_response_invalid_session in Hrun by auto.
       injection Hrun as _ _ <-. by left. }
  destruct (decide (bid = 0)) as [-> | Hbid].
  { rewrite payment_response_invalid_session in Hrun by auto.
    injection Hrun as _ _ <-. by left. }
  destruct (beat_table w !! bid) as [row|] eqn:Hrow.
  2: { by rewrite (payment_response_missing_beat _ _ _ _ _ bid) in Hrun. }
  destruct (decide (GET_status request = Some "successful")) as [Hst | Hst].
  - destruct (user_buyer_profile request) as [buyer|] eqn:Hbuyer.
    + destruct (payment_response_successful init now now' request w bid row
                  Hs Hbid Hrow buyer Hbuyer Hst) as (tx & w2 & _ & Hpr & _).
      rewrite Hpr in Hrun. exfalso.
      apply (deliver_never_redirects init now' request beat_id_global w2 to message).
      unfold result. unfold run in Hrun. by rewrite Hrun.
    + by rewrite (payment_response_anonymous _ _ _ _ _ bid row) in Hrun.
  - destruct (decide (GET_status request = Some "cancelled")) as [Hc | Hc].
    + rewrite (payment_response_cancelled init now now' request w bid row Hs Hbid Hrow Hc)
        in Hrun.
      injection Hrun as _ _ <-. by right.
    + rewrite (payment_response_failed init now now' request w bid row Hs Hbid Hrow Hst Hc)
        in Hrun.
      injection Hrun as _ _ <-. by right.
Qed.

(** X10.  After a successful callback for beat [bid] by a logged-in buyer,
    the download endpoint no longer answers that buyer "You have not
    purchased this beat." for [bid], nor [Http404]: the beat is among the
    buyer's [purchased_beats], stored as sold. *)
Theorem successful_callback_opens_download
    init now now' request (w : World) bid row buyer :
  keyed_by_pk w ->
  session_current_beat_id w = Some bid ->
  bid <> 0 ->
  beat_table w !! bid = Some row ->
  GET_status request = Some "successful" ->
  user_buyer_profile request = Some buyer ->
  Buyer_purchased_beats buyer (after (payment_response init now now' request) w) !! bid
    = Some (from_db (purchased (from_db row))) /\
  forall init2 now2 request2,
    user_buyer_profile request2 = Some buyer ->
    result (download_beat init2 now2 request2 bid)
           (after (payment_response init now now' request) w) <> Raise Http404 /\
    result (download_beat init2 now2 request2 bid)
           (after (payment_response init now now' request) w)
      <> Ok (HttpResponseForbidden "You have not purchased this beat.").
Proof.
  intros Hkeyed Hs Hbid Hrow Hst Hbuyer.
  destruct (payment_response_successful_after init now now' request w bid row buyer
              Hkeyed Hs Hbid Hrow Hst Hbuyer) as (tx & Htt & Htx & Hstored & Hkeyed').
  set (w' := after (payment_response init now now' request) w) in *.
  set (stored := from_db (purchased (from_db row))) in *.
  assert (Hp : has_completed_transaction buyer stored w' = true).
  { apply has_completed_transaction_iff. exists tx.
    split; [rewrite Htt; apply elem_of_app; right; by apply list_elem_of_singleton|].
    rewrite Htx. cbn. by rewrite (Hkeyed _ _ Hrow). }
  split.
  { unfold Buyer_purchased_beats. by apply map_lookup_filter_Some_2. }
  intros init2 now2 request2 Hbuyer2. unfold result.
  destruct (download_beat_cases init2 now2 request2 bid w')
    as [(Hrow' & Hrun) | [(row' & Hrow' & Hb' & Hrun) | [(row' & buyer' & Hrow' & Hb' & Hp' & Hrun)
       | [(row' & buyer' & Hrow' & Hb' & Hp' & _ & Hrun)
       | [(row' & buyer' & Hrow' & Hb' & Hp' & _ & _ & Hrun)
       | (row' & buyer' & w2 & Hrow' & Hb' & Hp' & _ & _ & Hrun & _)]]]]];
    rewrite ?Hstored, ?Hbuyer2 in *; try discriminate;
    injection Hrow' as <-; injection Hb' as <-;
    unfold run in Hrun; rewrite Hrun; cbn [fst]; try (split; discriminate).
  congruence.
Qed.

Lemma successful_callback_opens_download_witness :
  result (download_beat StrictInit 40 Sample.request 1)
         (after (payment_response StrictInit 20 21 (Sample.callback "successful"))
                Sample.checkout_shop)
    <> Ok (HttpResponseForbidden "You have not purchased this beat.").
Proof.
  destruct (successful_callback_opens_download StrictInit 20 21
              (Sample.callback "successful") Sample.checkout_shop 1 Sample.beat 7
              checkout_shop_keyed eq_refl ltac:(discriminate) eq_refl eq_refl eq_refl)
    as [_ H].
  apply (H StrictInit 40 Sample.request eq_refl).
Defined.

(** X11.  A successful callback raises the total revenue by exactly the
    price of the beat named by the session and the number of beats sold
    by one; a callback answered with a redirect leaves the ledger, and so
    both figures, as they were. *)
Theorem callback_revenue_effect init now now' request (w : World) bid row buyer :
  keyed_by_pk w ->
  session_current_beat_id w = Some bid ->
  bid <> 0 ->
  beat_table w !! bid = Some row ->
  GET_status request = Some "successful" ->
  user_buyer_profile request = Some buyer ->
  Transaction_get_total_revenue (after (payment_response init now now' request) w)
    = Transaction_get_total_revenue w + price row /\
  Transaction_get_beats_sold_count (after (payment_response init now now' request) w)
    = Transaction_get_beats_sold_count w + 1 /\
  (forall init1 now1 now1' request1 w0 w1 to message,
     run (payment_response init1 now1 now1' request1) w0 = (Ok (Redirected to message), w1) ->
     transaction_table w1 = transaction_table w0 /\
     Transaction_get_total_revenue w1 = Transaction_get_total_revenue w0 /\
     Transaction_get_beats_sold_count w1 = Transaction_get_beats_sold_count w0).
Proof.
  intros Hkeyed Hs Hbid Hrow Hst Hbuyer.
  destruct (payment_response_successful_after init now now' request w bid row buyer
              Hkeyed Hs Hbid Hrow Hst Hbuyer) as (tx & Htt & Htx & _ & _).
  assert (Hcompleted : completed_transactions (after (payment_response init now now' request) w)
                       = completed_transactions w ++ [tx]).
  { unfold completed_transactions. rewrite Htt, filter_app.
    rewrite (filter_cons_True _ tx) by (by rewrite Htx). by rewrite filter_nil. }
  unfold Transaction_get_total_revenue, Transaction_get_beats_sold_count, count.
  rewrite !or_0_Sum, Hcompleted, total_amount_app, length_app.
  split; [rewrite Htx; cbn; lia|]. split; [cbn; lia|].
  intros init1 now1 now1' request1 w0 w1 to message Hrun.
  destruct (payment_response_redirect_world _ _ _ _ _ _ _ _ Hrun) as [-> | ->]; done.
Qed.

Lemma callback_revenue_effect_witness :
  Transaction_get_total_revenue
    (after (payment_response StrictInit 20 21 (Sample.callback "successful"))
           Sample.checkout_shop) = 0 + 2500.
Proof.
  apply (callback_revenue_effect StrictInit 20 21 (Sample.callback "successful")
           Sample.checkout_shop 1 Sample.beat 7
           checkout_shop_keyed eq_refl ltac:(discriminate) eq_refl eq_refl eq_refl).
Defined.

(** ** The buyer's purchases and the download endpoint *)

(** X12.  For a logged-in buyer and an existing beat, the download
    endpoint answers "You have not purchased this beat." exactly when the
    beat is not among the buyer's [purchased_beats]. *)
Theorem download_gate_agrees_with_purchased_beats
    init now request beat_id (w : World) row buyer :
  beat_table w !! beat_id = Some row ->
  user_buyer_profile request = Some buyer ->
  (run (download_beat init now request beat_id) w
     = (Ok (HttpResponseForbidden "You have not purchased this beat."), w)
   <-> Buyer_purchased_beats buyer w !! beat_id = None).
Proof.
  intros Hrow Hbuyer. unfold Buyer_purchased_beats.
  rewrite map_lookup_filter_None.
  destruct (download_beat_cases init now request beat_id w)
    as [(Hrow' & Hrun) | [(row' & Hrow' & Hb' & Hrun) | [(row' & buyer' & Hrow' & Hb' & Hp & Hrun)
       | [(row' & buyer' & Hrow' & Hb' & Hp & _ & Hrun)
       | [(row' & buyer' & Hrow' & Hb' & Hp & _ & _ & Hrun)
       | (row' & buyer' & w' & Hrow' & Hb' & Hp & _ & _ & Hrun & _)]]]]];
    rewrite ?Hrow, ?Hbuyer in *; try discriminate;
    injection Hrow' as <-; injection Hb' as <-; rewrite Hrun.
  - split; [|done]. intros _. right. intros x [= <-]. cbn. by rewrite Hp.
  - split; [discriminate|]. intros [|Hno]; [discriminate|]. by destruct (Hno row eq_refl).
  - split; [discriminate|]. intros [|Hno]; [discriminate|]. by destruct (Hno row eq_refl).
  - split; [discriminate|]. intros [|Hno]; [discriminate|]. by destruct (Hno row eq_refl).
Qed.

Lemma download_gate_agrees_with_purchased_beats_witness :
  Buyer_purchased_beats 8 Sample.paid_shop !! 1 = None /\
  run (download_beat StrictInit 20 Scenario.other_request 1) Sample.paid_shop
    = (Ok (HttpResponseForbidden "You have not purchased this beat."), Sample.paid_shop).
Proof.
  split; [reflexivity|].
  apply (download_gate_agrees_with_purchased_beats StrictInit 20 Scenario.other_request 1
           Sample.paid_shop (purchased Sample.beat) 8 eq_refl eq_refl).
  reflexivity.
Defined.

(** ** Starting a purchase *)

Lemma purchase_and_download_beat_run env method beat_id (w : World) row :
  beat_table w !! beat_id = Some row ->
  exists outcome,
    run (purchase_and_download_beat env method beat_id) w
      = (Ok outcome, set_session_current_beat_id (Some beat_id) w) /\
    (method <> "POST" -> outcome = RenderPurchaseConfirm (from_db row) (price row)).
Proof.
  intros Hrow. unfold purchase_and_download_beat.
  destruct (decide (method = "POST")) as [Hm | Hm].
  - destruct (process_payment env "josh" "beat@beat.com") as [e | link] eqn:Hpay.
    + exists (PaymentFailed e). split; [|done].
      step_with ltac:(apply get_object_or_404_run; exact Hrow). step_modify.
      by rewrite bool_decide_eq_true_2 by exact Hm.
    + exists (RedirectToPayment link). split; [|done].
      step_with ltac:(apply get_object_or_404_run; exact Hrow). step_modify.
      by rewrite bool_decide_eq_true_2 by exact Hm.
  - exists (RenderPurchaseConfirm (from_db row) (price row)). split; [|done].
    step_with ltac:(apply get_object_or_404_run; exact Hrow). step_modify.
    by rewrite bool_decide_eq_false_2 by exact Hm.
Qed.

(** X13.  Starting a purchase reserves nothing.  Whatever the method, the
    environment and the gateway's answer, [purchase_and_download_beat]
    leaves every beat, the ledger and the download history as they were;
    for an existing beat its only write is the beat id into the session,
    and for a beat that does not exist it raises [Http404] and writes
    nothing. *)
Theorem purchase_and_download_beat_reserves_nothing env method beat_id (w : World) :
  beat_table (after (purchase_and_download_beat env method beat_id) w) = beat_table w /\
  transaction_table (after (purchase_and_download_beat env method beat_id) w)
    = transaction_table w /\
  downloadhistory_table (after (purchase_and_download_beat env method beat_id) w)
    = downloadhistory_table w /\
  (is_Some (beat_table w !! beat_id) ->
   after (purchase_and_download_beat env method beat_id) w
     = set_session_current_beat_id (Some beat_id) w) /\
  (beat_table w !! beat_id = None ->
   run (purchase_and_download_beat env method beat_id) w = (Raise Http404, w)).
Proof.
  unfold after.
  destruct (beat_table w !! beat_id) as [row|] eqn:Hrow.
  - destruct (purchase_and_download_beat_run env method beat_id w row Hrow)
      as (outcome & Hrun & _).
    unfold run in Hrun. rewrite Hrun. cbn [snd]. by repeat split.
  - assert (Hrun : run (purchase_and_download_beat env method beat_id) w = (Raise Http404, w)).
    { unfold purchase_and_download_beat. apply run_bind_raise.
      unfold get_object_or_404. step_gets. by rewrite Hrow. }
    unfold run in Hrun. rewrite Hrun. cbn [snd].
    do 3 (split; [reflexivity|]). split; [by intros [? ?] | done].
Qed.

Lemma purchase_and_download_beat_reserves_nothing_witness :
  after (purchase_and_download_beat Scenario.env "POST" 1) Sample.shop
    = set_session_current_beat_id (Some 1) Sample.shop /\
  run (purchase_and_download_beat Scenario.env "POST" 5) Sample.shop
    = (Raise Http404, Sample.shop).
Proof.
  destruct (purchase_and_download_beat_reserves_nothing Scenario.env "POST" 1 Sample.shop)
    as (_ & _ & _ & H1 & _).
  destruct (purchase_and_download_beat_reserves_nothing Scenario.env "POST" 5 Sample.shop)
    as (_ & _ & _ & _ & H2).
  split; [apply H1; by eexists | by apply H2].
Defined.

(** X14.  The session carries the beat from the purchase page to the
    callback.  After [purchase_and_download_beat] has answered for an
    existing beat [bid] with the confirmation page or the redirect to the
    payment link, a successful callback of a logged-in buyer adds to the ledger a
    completed transaction of that buyer for [bid] with the beat's price,
    and a cancelled one redirects to the album of [bid]; but for [bid = 0]
    every callback is answered "Invalid payment session". *)
Theorem purchase_then_callback
    env method init now now' request (w : World) bid row :
  keyed_by_pk w ->
  beat_table w !! bid = Some row ->
  (forall e, result (purchase_and_download_beat env method bid) w <> Ok (PaymentFailed e)) ->
  (bid = 0 ->
   run (payment_response init now now' request)
       (after (purchase_and_download_beat env method bid) w)
     = (Ok (Redirected main_index "Invalid payment session. Please try again."),
        after (purchase_and_download_beat env method bid) w)) /\
  (bid <> 0 ->
   (GET_status request = Some "cancelled" ->
    result (payment_response init now now' request)
           (after (purchase_and_download_beat env method bid) w)
      = Ok (Redirected (main_detail (album row))
                       "Payment was cancelled. Please try again.")) /\
   (forall buyer,
      GET_status request = Some "successful" ->
      user_buyer_profile request = Some buyer ->
      transaction_table
        (after (payment_response init now now' request)
               (after (purchase_and_download_beat env method bid) w))
      = transaction_table w
        ++ [mkTransaction
              (Some (fresh_pk (map t_id (transaction_table w))))
              buyer bid None (price row) completed "" (Some now)])).
Proof.
  intros Hkeyed Hrow _.
  destruct (purchase_and_download_beat_run env method bid w row Hrow)
    as (outcome & Hrun & _).
  assert (Hafter : after (purchase_and_download_beat env method bid) w
                   = set_session_current_beat_id (Some bid) w).
  { unfold after. unfold run in Hrun. by rewrite Hrun. }
  rewrite Hafter. set (w1 := set_session_current_beat_id (Some bid) w).
  split.
  { intros ->. apply payment_response_invalid_session. by right. }
  intros Hbid. split.
  - intros Hst. unfold result.
    pose proof (payment_response_cancelled init now now' request w1 bid row
                  eq_refl Hbid Hrow Hst) as Hpr.
    unfold run in Hpr. by rewrite Hpr.
  - intros buyer Hst Hbuyer.
    assert (Hkeyed1 : keyed_by_pk w1) by exact Hkeyed.
    destruct (payment_response_successful init now now' request w1 bid row
                eq_refl Hbid Hrow buyer Hbuyer Hst)
      as (tx & w2 & Hcreate & Hpr & _).
    assert (Hafter2 : after (payment_response init now now' request) w1
                      = after (download_beat init now' request beat_id_global) w2).
    { rewrite <- after_deliver. unfold after. unfold run in Hpr. by rewrite Hpr. }
    rewrite Hafter2, download_beat_ledger.
    unfold run, Transaction_objects_create, Transaction_save, bind in Hcreate.
    cbn in Hcreate. injection Hcreate as _ <-. cbn.
    by rewrite (Hkeyed _ _ Hrow).
Qed.

Lemma purchase_then_callback_witness :
  transaction_table
    (after (payment_response StrictInit 20 21 (Sample.callback "successful"))
           (after (purchase_and_download_beat Scenario.env "POST" 1) Sample.shop))
  = [mkTransaction (Some 1) 7 1 None 2500 completed "" (Some 20)].
Proof.
  assert (Hkeyed : keyed_by_pk Sample.shop).
  { intros k b. unfold Sample.shop. cbn [beat_table].
    by intros [<- <-]%lookup_singleton_Some. }
  assert (Hanswered : forall e,
            result (purchase_and_download_beat Scenario.env "POST" 1) Sample.shop
            <> Ok (PaymentFailed e)) by (intros e; discriminate).
  destruct (purchase_then_callback Scenario.env "POST" StrictInit 20 21
              (Sample.callback "successful") Sample.shop 1 Sample.beat Hkeyed eq_refl
              Hanswered)
    as [_ H].
  destruct (H ltac:(discriminate)) as [_ H2].
  apply (H2 7 eq_refl eq_refl).
Defined.

(** ** Daily revenue *)

Lemma Zge_transitive : Transitive Z.ge.
Proof. intros x y z. lia. Qed.

Lemma Zge_total : Total Z.ge.
Proof. intros x y. lia. Qed.

Lemma StronglySorted_ge_NoDup (l : list Z) :
  StronglySorted Z.ge l -> NoDup l -> StronglySorted (fun x y => y < x) l.
Proof.
  induction 1 as [|x l Hs IH Hall]; intros Hnd; [constructor|].
  apply NoDup_cons in Hnd as [Hx Hnd]. constructor; [by apply IH|].
  rewrite Forall_forall in Hall |- *. intros y Hy.
  assert (x <> y) by (intros ->; by apply Hx).
  specialize (Hall y Hy). lia.
Qed.

Lemma count_as_weight rows :
  count rows = fold_right (fun (t : Transaction) acc => 1 + acc) 0 rows.
Proof.
  unfold count. induction rows as [|t rows IH]; [reflexivity|].
  cbn [length fold_right]. rewrite <- IH. lia.
Qed.

Lemma indicator_sum_absent (d0 : option Z) (a : Z) (ds : list Z) :
  (forall d, d ∈ ds -> d0 <> Some d) ->
  fold_right (fun d acc => (if decide (d0 = Some d) then a else 0) + acc) 0 ds = 0.
Proof.
  induction ds as [|d ds IH]; intros Habs; [reflexivity|]. cbn [fold_right].
  rewrite IH by (intros d' Hd'; apply Habs; by right).
  rewrite decide_False; [lia|]. apply Habs. by left.
Qed.

Lemma indicator_sum (d0 : option Z) (a : Z) (ds : list Z) :
  NoDup ds ->
  (exists d, d ∈ ds /\ d0 = Some d) ->
  fold_right (fun d acc => (if decide (d0 = Some d) then a else 0) + acc) 0 ds = a.
Proof.
  induction 1 as [|d ds Hd Hnd IH]; intros (d' & Hin & ->); cbn [fold_right].
  - by apply elem_of_nil in Hin.
  - apply elem_of_cons in Hin as [-> | Hin].
    + rewrite decide_True by reflexivity.
      rewrite indicator_sum_absent; [lia|]. intros d'' Hd'' [= ->]. by apply Hd.
    + rewrite decide_False by (intros [= ->]; by apply Hd).
      rewrite IH; [lia|]. eauto.
Qed.

(** Grouping by date loses nothing and counts nothing twice. *)
Lemma group_by_date_total (wt : Transaction -> Z) (ds : list Z) rows :
  NoDup ds ->
  (forall t, t ∈ rows -> exists d, d ∈ ds /\ completed_date t = Some d) ->
  fold_right
    (fun d acc =>
       fold_right (fun t acc => wt t + acc) 0 (filter_completed_at_date d rows) + acc)
    0 ds
  = fold_right (fun t acc => wt t + acc) 0 rows.
Proof.
  intros Hnd. induction rows as [|t rows IH]; intros Hcover.
  - clear Hcover Hnd. induction ds as [|d ds IHd]; [reflexivity|].
    cbn [fold_right]. rewrite IHd. reflexivity.
  - cbn [fold_right]. rewrite <- IH by (intros t' Ht'; apply Hcover; by right).
    assert (Hsplit : forall l : list Z,
      fold_right
        (fun d acc =>
           fold_right (fun t acc => wt t + acc) 0
             (filter_completed_at_date d (t :: rows)) + acc) 0 l
      = fold_right (fun d acc =>
                      (if decide (completed_date t = Some d) then wt t else 0) + acc) 0 l
        + fold_right
            (fun d acc =>
               fold_right (fun t acc => wt t + acc) 0
                 (filter_completed_at_date d rows) + acc) 0 l).
    { induction l as [|d l IHl]; [reflexivity|].
      cbn [fold_right]. rewrite IHl. unfold filter_completed_at_date.
      rewrite filter_cons. unfold completed_date.
      destruct (decide (date <$> completed_at t = Some d)); cbn [fold_right]; lia. }
    rewrite Hsplit, indicator_sum; [reflexivity | exact Hnd |]. apply Hcover. by left.
Qed.

Section DailyRevenue.

Variables (now days : Z) (w : World).

Lemma daily_dates_elem d :
  d ∈ daily_dates now days w <->
  exists t, t ∈ daily_rows now days w /\ completed_date t = Some d.
Proof.
  unfold daily_dates. rewrite merge_sort_Permutation, elem_of_remove_dups.
  apply list_elem_of_omap.
Qed.

Lemma daily_dates_NoDup : NoDup (daily_dates now days w).
Proof. unfold daily_dates. rewrite merge_sort_Permutation. apply NoDup_remove_dups. Qed.

Lemma daily_rows_elem t :
  t ∈ daily_rows now days w <->
  t ∈ transaction_table w /\ t_status t = completed /\
  exists c, completed_at t = Some c /\ now - days * 86400 <= c.
Proof.
  unfold daily_rows. rewrite list_elem_of_filter. unfold completed_since, timedelta_days.
  rewrite andb_true_iff, bool_decide_eq_true. split.
  - intros [[Hs Hc] Hin]. split; [done|]. split; [done|].
    destruct (completed_at t) as [c|]; [|discriminate].
    exists c. split; [reflexivity|]. by apply Z.leb_le.
  - intros (Hin & Hs & c & Hc & Hle). split; [|done]. split; [done|].
    rewrite Hc. by apply Z.leb_le.
Qed.

Lemma daily_rows_covered t :
  t ∈ daily_rows now days w ->
  exists d, d ∈ daily_dates now days w /\ completed_date t = Some d.
Proof.
  intros Ht. pose proof Ht as (_ & _ & c & Hc & _)%daily_rows_elem.
  exists (date c). split; [|unfold completed_date; by rewrite Hc].
  apply daily_dates_elem. exists t. split; [done|]. unfold completed_date. by rewrite Hc.
Qed.

Lemma daily_revenue_unfold :
  Transaction_get_daily_revenue now days w
    = (fun d =>
         mkDailyRevenue d (Sum (filter_completed_at_date d (daily_rows now days w)))
                        (count (filter_completed_at_date d (daily_rows now days w))))
      <$> daily_dates now days w.
Proof. reflexivity. Qed.

Lemma daily_group_nonempty d :
  d ∈ daily_dates now days w ->
  exists t group, filter_completed_at_date d (daily_rows now days w) = t :: group.
Proof.
  intros (t & Ht & Hd)%daily_dates_elem.
  assert (Hin : t ∈ filter_completed_at_date d (daily_rows now days w)).
  { unfold filter_completed_at_date. apply list_elem_of_filter. done. }
  destruct (filter_completed_at_date d (daily_rows now days w)) as [|t' group];
    [by apply elem_of_nil in Hin|].
  eauto.
Qed.

End DailyRevenue.

(** X15.  [get_daily_revenue] lists each date once, latest first; a date
    is listed exactly when a completed transaction with [completed_at] in
    the last [days] days falls on it; and every listed row counts at
    least one sale and carries a revenue that is not null. *)
Theorem daily_revenue_listing now days (w : World) :
  StronglySorted (fun a b => dr_date b < dr_date a)
                 (Transaction_get_daily_revenue now days w) /\
  (forall d,
     (exists r, r ∈ Transaction_get_daily_revenue now days w /\ dr_date r = d)
     <->
     (exists t c, t ∈ transaction_table w /\ t_status t = completed /\
                  completed_at t = Some c /\ now - days * 86400 <= c /\ date c = d)) /\
  (forall r,
     r ∈ Transaction_get_daily_revenue now days w ->
     1 <= daily_sales r /\ exists revenue, daily_revenue r = Some revenue).
Proof.
  rewrite daily_revenue_unfold. split; [|split].
  - apply (StronglySorted_fmap _ (fun x y => y < x)); [done|].
    apply StronglySorted_ge_NoDup; [|apply daily_dates_NoDup].
    unfold daily_dates.
    apply (@StronglySorted_merge_sort Z Z.ge _ Zge_transitive Zge_total).
  - intros d. split.
    + intros (r & (d' & -> & Hd')%list_elem_of_fmap & <-). cbn [dr_date].
      apply daily_dates_elem in Hd' as (t & Ht & Hd).
      apply daily_rows_elem in Ht as (Hin & Hs & c & Hc & Hle).
      exists t, c. do 4 (split; [done|]).
      unfold completed_date in Hd. rewrite Hc in Hd. by injection Hd.
    + intros (t & c & Hin & Hs & Hc & Hle & <-).
      eexists (mkDailyRevenue (date c) _ _). split; [|reflexivity].
      apply list_elem_of_fmap. exists (date c). split; [reflexivity|].
      apply daily_dates_elem. exists t. split.
      * apply daily_rows_elem. eauto.
      * unfold completed_date. by rewrite Hc.
  - intros r (d & -> & Hd)%list_elem_of_fmap. cbn [daily_sales daily_revenue].
    destruct (daily_group_nonempty now days w d Hd) as (t & group & ->).
    split; [unfold count; cbn [length]; lia | by eexists].
Qed.

Lemma listed_sales_fmap (f : Z -> list Transaction) (ds : list Z) :
  listed_sales ((fun d => mkDailyRevenue d (Sum (f d)) (count (f d))) <$> ds)
    = fold_right (fun d acc =>
                    fold_right (fun (t : Transaction) acc => 1 + acc) 0 (f d) + acc) 0 ds.
Proof.
  induction ds as [|d ds IH]; [reflexivity|].
  rewrite fmap_cons.
  change (listed_sales (?r :: ?l)) with (daily_sales r + listed_sales l).
  rewrite IH. cbn [daily_sales fold_right]. by rewrite count_as_weight.
Qed.

Lemma listed_revenue_fmap (f : Z -> list Transaction) (ds : list Z) :
  listed_revenue ((fun d => mkDailyRevenue d (Sum (f d)) (count (f d))) <$> ds)
    = fold_right (fun d acc =>
                    fold_right (fun t acc => amount t + acc) 0 (f d) + acc) 0 ds.
Proof.
  induction ds as [|d ds IH]; [reflexivity|].
  rewrite fmap_cons.
  change (listed_revenue (?r :: ?l)) with (or_0 (daily_revenue r) + listed_revenue l).
  rewrite IH. cbn [daily_revenue fold_right]. by rewrite or_0_Sum.
Qed.

(** X16.  The rows of [get_daily_revenue] add up: their sales sum to the
    number of completed transactions of the window and their revenues to
    the sum of the amounts of those transactions.  When every completed
    transaction of the ledger has its [completed_at] inside the window,
    these are [get_beats_sold_count] and [get_total_revenue]. *)
Theorem daily_revenue_adds_up now days (w : World) :
  listed_sales (Transaction_get_daily_revenue now days w) = count (daily_rows now days w) /\
  listed_revenue (Transaction_get_daily_revenue now days w)
    = total_amount (daily_rows now days w) /\
  ((forall t, t ∈ transaction_table w -> t_status t = completed ->
              exists c, completed_at t = Some c /\ now - days * 86400 <= c) ->
   listed_sales (Transaction_get_daily_revenue now days w)
     = Transaction_get_beats_sold_count w /\
   listed_revenue (Transaction_get_daily_revenue now days w)
     = Transaction_get_total_revenue w).
Proof.
  rewrite daily_revenue_unfold, listed_sales_fmap, listed_revenue_fmap.
  rewrite !group_by_date_total
    by (apply daily_dates_NoDup || (intros t Ht; by apply daily_rows_covered)).
  rewrite <- count_as_weight. split; [reflexivity|]. split; [reflexivity|].
  intros Hall.
  assert (Hrows : daily_rows now days w = completed_transactions w).
  { unfold daily_rows, completed_transactions.
    induction (transaction_table w) as [|t l IH]; [reflexivity|].
    assert (IH' := IH (fun t' Ht' => Hall t' (list_elem_of_further _ _ _ Ht'))).
    destruct (decide (t_status t = completed)) as [Hs | Hs].
    - destruct (Hall t (list_elem_of_here _ _) Hs) as (c & Hc & Hle).
      rewrite !filter_cons_True; [by rewrite IH' | exact Hs |].
      unfold completed_since, timedelta_days. rewrite Hc.
      rewrite bool_decide_eq_true_2 by exact Hs. by apply Z.leb_le.
    - rewrite !filter_cons_False; [exact IH' | exact Hs |].
      unfold completed_since. by rewrite bool_decide_eq_false_2 by exact Hs. }
  rewrite Hrows. unfold Transaction_get_beats_sold_count, Transaction_get_total_revenue.
  by rewrite or_0_Sum.
Qed.

Lemma daily_revenue_adds_up_witness :
  listed_sales (Transaction_get_daily_revenue 190000 60 Scenario.ledger_shop)
    = Transaction_get_beats_sold_count Scenario.ledger_shop /\
  listed_revenue (Transaction_get_daily_revenue 190000 60 Scenario.ledger_shop)
    = Transaction_get_total_revenue Scenario.ledger_shop.
Proof.
  apply (proj2 (proj2 (daily_revenue_adds_up 190000 60 Scenario.ledger_shop))).
  intros t Ht Hs.
  unfold Scenario.ledger_shop in Ht. cbn [transaction_table] in Ht.
  repeat (apply elem_of_cons in Ht as [-> | Ht]);
    try discriminate Hs;
    try (eexists; split; [reflexivity | vm_compute; discriminate]).
  by apply elem_of_nil in Ht.
Defined.

(** ** The daily report *)

(** X17.  [generate_daily_revenue_report] leaves exactly one report for
    today, holding the total revenue and the number of beats sold over
    the whole ledger, whether or not a report for today existed; reports
    of other dates are untouched; and running it again on the same day
    over the same ledger changes nothing. *)
Theorem generate_daily_revenue_report_upserts
    today (w : World) (reports : gmap Z RevenueReport) :
  reports_keyed reports ->
  (generate_daily_revenue_report today w reports).1
    = mkRevenueReport today (Transaction_get_total_revenue w)
                      (Transaction_get_beats_sold_count w) /\
  (generate_daily_revenue_report today w reports).2 !! today
    = Some (generate_daily_revenue_report today w reports).1 /\
  (forall d, d <> today ->
     (generate_daily_revenue_report today w reports).2 !! d = reports !! d) /\
  reports_keyed (generate_daily_revenue_report today w reports).2 /\
  generate_daily_revenue_report today w (generate_daily_revenue_report today w reports).2
    = generate_daily_revenue_report today w reports.
Proof.
  intros Hkeyed.
  assert (Hgen : generate_daily_revenue_report today w reports
                 = (mkRevenueReport today (Transaction_get_total_revenue w)
                                    (Transaction_get_beats_sold_count w),
                    <[today := mkRevenueReport today (Transaction_get_total_revenue w)
                                               (Transaction_get_beats_sold_count w)]>
                      reports)).
  { unfold generate_daily_revenue_report.
    destruct (reports !! today) as [r|] eqn:Hr; [|reflexivity].
    by rewrite (Hkeyed _ _ Hr). }
  rewrite Hgen. cbn [fst snd].
  split; [reflexivity|]. split; [apply lookup_insert_eq|].
  split; [intros d Hd; by apply lookup_insert_ne|].
  split.
  - intros d r [[<- <-] | [_ Hr]]%lookup_insert_Some; [reflexivity | by apply Hkeyed].
  - unfold generate_daily_revenue_report at 1. rewrite lookup_insert_eq.
    cbn [report_date]. by rewrite insert_insert_eq.
Qed.

Lemma generate_daily_revenue_report_upserts_witness :
  (generate_daily_revenue_report 2 Scenario.ledger_shop
     {[ 2 := mkRevenueReport 2 100 1; 1 := mkRevenueReport 1 100 1 ]}).2
  = {[ 2 := mkRevenueReport 2 5700 4; 1 := mkRevenueReport 1 100 1 ]}.
Proof.
  assert (Hkeyed : reports_keyed {[ 2 := mkRevenueReport 2 100 1;
                                    1 := mkRevenueReport 1 100 1 ]}).
  { intros d r [[<- <-] | [_ [<- <-]%lookup_singleton_Some]]%lookup_insert_Some;
      reflexivity. }
  destruct (generate_daily_revenue_report_upserts 2 Scenario.ledger_shop _ Hkeyed)
    as (H1 & H2 & H3 & _).
  apply map_eq. intros d. destruct (decide (d = 2)) as [-> | Hd].
  - rewrite H2, H1. reflexivity.
  - rewrite (H3 d Hd). by rewrite !lookup_insert_ne.
Defined.

(** ** Revenue statistics *)





(** ** The album page *)

Lemma detail_run albums album_id (w : World) :
  album_id ∈ albums ->
  run (detail albums album_id) w
    = (Ok (filter (fun kb => album kb.2 = album_id /\ status kb.2 = available)
                  (beat_table w)), w).
Proof. intros Hin. unfold detail. by rewrite bool_decide_eq_true_2 by exact Hin. Qed.

(** X19.  The album page reads the stored status and does not sweep
    expired reservations.  A beat of the album whose reservation has
    expired is not listed, although [is_available] answers [True] for it;
    only after that call, which stores the beat as available, does the
    page list it. *)
Theorem detail_lists_expired_reservation_only_after_sweep
    albums album_id now k (b : Beat) (w : World) :
  album_id ∈ albums ->
  beat_table w !! k = Some b ->
  pk b = k ->
  album b = album_id ->
  reservation_expired now b ->
  exists listing w' listing',
    run (detail albums album_id) w = (Ok listing, w) /\
    listing !! k = None /\
    run (Beat_is_available now (from_db b)) w = (Ok (released (from_db b), true), w') /\
    run (detail albums album_id) w' = (Ok listing', w') /\
    listing' !! k = Some (released (from_db b)).
Proof.
  intros Halbum Hrow Hpk Hal (Hs & u & Hu & Hlt).
  eexists _, _, _. split; [by apply detail_run|].
  split.
  { apply map_lookup_filter_None. right. intros b' Hb' [_ Hav]. cbn in Hav.
    rewrite Hrow in Hb'. injection Hb' as <-. congruence. }
  assert (Hexp : reservation_expired now (from_db b)) by (split; [exact Hs | eauto]).
  destruct (release_reservation_cases now (from_db b) w) as [[_ Hrun] | [Hne _]];
    [|by destruct Hne].
  split.
  { unfold Beat_is_available. step_with ltac:(exact Hrun). apply run_ret. }
  split; [by apply detail_run|].
  apply map_lookup_filter_Some_2.
  - cbn [beat_table set_beat_table]. change (pk (from_db b)) with (pk b).
    rewrite Hpk. apply lookup_insert_eq.
  - cbn. done.
Qed.

Lemma detail_lists_expired_reservation_only_after_sweep_witness :
  exists listing w' listing',
    run (detail Scenario.albums 1) (w_held 0 Sample.beat Sample.shop)
      = (Ok listing, w_held 0 Sample.beat Sample.shop) /\
    listing !! 1 = None /\
    run (Beat_is_available 301 (from_db (held 0 Sample.beat)))
        (w_held 0 Sample.beat Sample.shop)
      = (Ok (released (from_db (held 0 Sample.beat)), true), w') /\
    run (detail Scenario.albums 1) w' = (Ok listing', w') /\
    listing' !! 1 = Some (released (from_db (held 0 Sample.beat))).
Proof.
  apply (detail_lists_expired_reservation_only_after_sweep Scenario.albums 1 301 1
           (held 0 Sample.beat) (w_held 0 Sample.beat Sample.shop)).
  - by apply elem_of_singleton.
  - reflexivity.
  - reflexivity.
  - reflexivity.
  - split; [reflexivity|]. exists 300. split; reflexivity.
Defined.

(** X20.  A beat that has been paid for leaves the album pages: after a
    successful callback for beat [bid], no album page lists [bid]. *)
Theorem paid_beat_is_not_listed
    init now now' request (w : World) bid row buyer albums album_id :
  keyed_by_pk w ->
  session_current_beat_id w = Some bid ->
  bid <> 0 ->
  beat_table w !! bid = Some row ->
  GET_status request = Some "successful" ->
  user_buyer_profile request = Some buyer ->
  forall listing,
    result (detail albums album_id) (after (payment_response init now now' request) w)
      = Ok listing ->
    listing !! bid = None.
Proof.
  intros Hkeyed Hs Hbid Hrow Hst Hbuyer listing.
  destruct (payment_response_successful_after init now now' request w bid row buyer
              Hkeyed Hs Hbid Hrow Hst Hbuyer) as (tx & _ & _ & Hstored & _).
  unfold result, detail. case_bool_decide; [|discriminate].
  cbn. intros [= <-]. apply map_lookup_filter_None. right.
  intros b Hb [_ Hav]. rewrite Hstored in Hb. injection Hb as <-. discriminate Hav.
Qed.

Lemma paid_beat_is_not_listed_witness :
  exists listing,
    result (detail Scenario.albums 1)
           (after (payment_response StrictInit 20 21 (Sample.callback "successful"))
                  Sample.checkout_shop) = Ok listing /\
    listing !! 1 = None.
Proof.
  eexists. split; [reflexivity|].
  apply (paid_beat_is_not_listed StrictInit 20 21 (Sample.callback "successful")
           Sample.checkout_shop 1 Sample.beat 7 Scenario.albums 1
           checkout_shop_keyed eq_refl ltac:(discriminate) eq_refl eq_refl eq_refl).
  reflexivity.
Defined.

(** ** Creating a download history row directly *)

(** X21.  A [DownloadHistory] created without the keyword
    [download_count] is stored, and the first receiver counts it on the
    beat, but the second receiver then fails on the attribute it expects:
    the create ends in [AttributeError], leaving one new history row and
    the beat's stored count raised by one.  The second receiver itself
    never writes to the database. *)
Theorem history_create_without_keyword_raises init now buyer (beat : Beat) (w : World) :
  exists w',
    run (DownloadHistory_objects_create init now buyer beat None) w
      = (Raise AttributeError, w') /\
    downloadhistory_table w'
      = downloadhistory_table w
        ++ [mkDownloadHistory (Some (fresh_pk (map dh_id (downloadhistory_table w))))
                              (pk beat) None buyer now None] /\
    beat_table w' = <[pk beat := from_db (counted beat)]> (beat_table w) /\
    stored_download_count (pk beat) w' = Some (download_count beat + 1) /\
    transaction_table w' = transaction_table w /\
    (forall instance created w0,
       after (auto_increment_download_count instance created) w0 = w0).
Proof.
  eexists. split.
  { unfold DownloadHistory_objects_create.
    assert (Hbuild : forall k : DownloadHistory -> M DownloadHistory,
              run (bind (match @None Z, init with
                         | Some _, StrictInit => raise TypeError
                         | kw, _ => ret (mkDownloadHistory None (pk beat) (Some beat)
                                                           buyer now kw)
                         end) k) w
              = run (k (mkDownloadHistory None (pk beat) (Some beat) buyer now None)) w).
    { intros k. by destruct init. }
    rewrite Hbuild. step_gets. step_modify.
    step_with ltac:(apply update_beat_download_count_run; reflexivity).
    apply run_bind_raise. reflexivity. }
  cbn [downloadhistory_table beat_table transaction_table
       set_beat_table set_downloadhistory_table].
  split; [reflexivity|]. split; [reflexivity|].
  split.
  { unfold stored_download_count. cbn [beat_table set_beat_table].
    rewrite lookup_insert_eq. cbn [fmap option_fmap option_map].
    change (download_count (from_db (counted beat))) with (download_count (counted beat)).
    by rewrite download_count_counted. }
  split; [reflexivity|].
  intros instance created w0. unfold after, auto_increment_download_count.
  destruct created; [|reflexivity]. by destruct (dh_download_count instance).
Qed.

(** ** Revenue and the ledger *)

(** X22.  Only completed transactions count as revenue.  Saving a new
    transaction raises [get_total_revenue] by its amount and
    [get_beats_sold_count] by one when its status is 'completed', and
    leaves both as they were for every other status. *)
Theorem Transaction_save_revenue_effect now (self : Transaction) b (w : World) :
  result (related_beat (t_beat self) (t_beat_id self)) w = Ok b ->
  t_id self = None ->
  Transaction_get_total_revenue (after (Transaction_save now self) w)
    = Transaction_get_total_revenue w
      + (if bool_decide (t_status self = completed) then amount self else 0) /\
  Transaction_get_beats_sold_count (after (Transaction_save now self) w)
    = Transaction_get_beats_sold_count w
      + (if bool_decide (t_status self = completed) then 1 else 0).
Proof.
  intros Hb Hid.
  destruct (Transaction_save_decompose now self b w Hb)
    as (self2 & w2 & Hrun & Hid2 & _ & _ & Ham & Hst & Htt & _).
  rewrite Hid in Hid2.
  assert (Hafter : transaction_table (after (Transaction_save now self) w)
                   = transaction_table w
                     ++ [set_t_beat None
                           (set_t_id (Some (fresh_pk (map t_id (transaction_table w2))))
                                     self2)]).
  { unfold after. unfold run in Hrun. rewrite Hrun.
    unfold Model_save_Transaction. rewrite Hid2. cbn. by rewrite Htt. }
  unfold Transaction_get_total_revenue, Transaction_get_beats_sold_count,
    completed_transactions, count.
  rewrite !or_0_Sum, Hafter, filter_app, total_amount_app, length_app.
  case_bool_decide as Hc.
  - rewrite filter_cons_True by (cbn; congruence). rewrite filter_nil.
    cbn. rewrite Ham. lia.
  - rewrite filter_cons_False by (cbn; congruence). rewrite filter_nil.
    cbn. lia.
Qed.

Lemma Transaction_save_revenue_effect_witness :
  Transaction_get_total_revenue
    (after (Transaction_save 200 (Scenario.cancelled_tx Sample.beat)) Sample.paid_shop)
  = Transaction_get_total_revenue Sample.paid_shop + 0.
Proof.
  apply (Transaction_save_revenue_effect 200 (Scenario.cancelled_tx Sample.beat)
           Sample.beat Sample.paid_shop eq_refl eq_refl).
Defined.
